(** * B17: crop-rotation and sugarcane-disease inference services

    A shallow embedding of the two Python services of the repository

    - [sugarcane-disease-api/prediction.py]: the ensemble predictor
      [predict_sugarcane], its preprocessing [preprocess_image], the
      demo-mode toggle [DEMO_MODE] and the colour heuristic
      [heuristic_predict];
    - [crop-rotation-api/app.py]: the [/crop_recommendation] request handler
      with its three lookup tables,

    followed by the properties the specification states about them.

    Conventions of the embedding.

    - A Python call either returns or raises: [outcome].  Calls into the
      world (reading a file, running a trained model) are recorded in a
      trace, so a computation is a trace together with an outcome: [M].
    - Trained models, the image decoder and the request body are inputs of
      the embedding (oracles); the code of the repository never looks inside
      them.
    - Image statistics and probabilities are exact rationals ([Q]).  The
      heuristic works on means of 128*128 integers below 256: their float32
      sum is an integer below 2^24, the division by 2^14 is exact, and every
      comparison of the source has the same truth value on the floats and
      on the rationals.  The tensors of the ensemble branch are read
      twice: over the rationals in [Sugarcane], which is exact for the
      traces and for a single model, and in float32, as [np.mean] and
      [np.argmax] compute, in [F32].
    - [np.random.randint] is its documented contract: a finite uniform
      distribution, written as the list of its equiprobable outcomes. *)

From Stdlib Require Import ZArith QArith Qfield List String Ascii Lia Lqa.
From Stdlib Require Import SpecFloat.
From Stdlib.Strings Require Import Byte.
From stdpp Require Import base option list gmap strings.

Local Open Scope Z_scope.

(* ===================================================================== *)
(** ** Python values that either return or raise, with a call trace      *)
(* ===================================================================== *)

Module Py.

(** An exception object; [str(e)] is its message. *)
Record exn := Exception { exn_type : string; exn_msg : string }.

Definition str_exn (e : exn) : string := exn_msg e.

Inductive outcome (A : Type) :=
| Return (a : A)
| Raise (e : exn).
Arguments Return {A} a.
Arguments Raise {A} e.

(** A computation over events [E]: what it called, then how it ended. *)
Definition M (E A : Type) : Type := list E * outcome A.

Section Monad.
Context {E : Type}.

Definition ret {A} (a : A) : M E A := ([], Return a).

Definition raise {A} (e : exn) : M E A := ([], Raise e).

Definition bind {A B} (c : M E A) (k : A -> M E B) : M E B :=
  match c with
  | (t, Return a) => let '(t', r) := k a in (t ++ t', r)
  | (t, Raise e) => (t, Raise e)
  end.

(** An external call: one event, then the oracle's outcome. *)
Definition call {A} (ev : E) (r : outcome A) : M E A := ([ev], r).

(** [try: body except Exception as e: handler(e)] *)
Definition try_except {A} (body : M E A) (handler : exn -> M E A) : M E A :=
  match body with
  | (t, Return a) => (t, Return a)
  | (t, Raise e) => let '(t', r) := handler e in (t ++ t', r)
  end.

(** [[f(x) for x in xs]] *)
Fixpoint for_each {A B} (f : A -> M E B) (xs : list A) : M E (list B) :=
  match xs with
  | [] => ret []
  | x :: xs' => bind (f x) (fun y => bind (for_each f xs') (fun ys => ret (y :: ys)))
  end.

(** A pure library operation that may raise. *)
Definition lift {A} (o : outcome A) : M E A := ([], o).

Definition trace {A} (c : M E A) : list E := fst c.
Definition result {A} (c : M E A) : outcome A := snd c.
End Monad.

Declare Scope py_scope.
Delimit Scope py_scope with py.
Notation "x <- c ;; k" := (bind c (fun x => k))
  (at level 100, c at next level, right associativity) : py_scope.

End Py.
Import Py.
Local Open Scope py_scope.

(* ===================================================================== *)
(** ** Rational comparisons as Python writes them                         *)
(* ===================================================================== *)

Module QPy.
Local Open Scope Q_scope.

(** [a >= b] *)
Definition geb (a b : Q) : bool := Qle_bool b a.
(** [a < b] *)
Definition ltb (a b : Q) : bool := negb (Qle_bool b a).
(** [a > b] *)
Definition gtb (a b : Q) : bool := ltb b a.

(** Python's [max(a, b)]: the first argument unless the second is larger. *)
Definition max (a b : Q) : Q := if gtb b a then b else a.
End QPy.

(* ===================================================================== *)
(** ** Finite uniform distributions ([np.random])                         *)
(* ===================================================================== *)

Module Rand.
(** The equiprobable outcomes of a random computation. *)
Definition dist (A : Type) : Type := list A.

Definition certainly {A} (a : A) : dist A := [a].

(** [np.random.randint(low, high)]: uniform on [low, high). *)
Definition randint (low high : Z) : dist Z :=
  map (fun i => low + Z.of_nat i)%Z (seq 0 (Z.to_nat (high - low))).

(** Probability of an event. *)
Definition pr {A} (P : A -> bool) (d : dist A) : Q :=
  Z.of_nat (length (List.filter P d)) # Pos.of_nat (length d).
End Rand.

(* ===================================================================== *)
(** ** Python strings as code points ([str.strip])                        *)
(* ===================================================================== *)

Module PyStr.
(** A [str] is a sequence of Unicode code points. *)
Definition str := list N.

(** An ASCII literal of the source. *)
Definition lit (s : string) : str := map N_of_ascii (list_ascii_of_string s).

(** [str.isspace] on one character, CPython's [_PyUnicode_IsWhitespace]. *)
Definition isspace (c : N) : bool :=
  ((0x09 <=? c) && (c <=? 0x0D)            (* \t \n \v \f \r *)
   || (0x1C <=? c) && (c <=? 0x20)         (* FS GS RS US, space *)
   || (c =? 0x85) || (c =? 0xA0) || (c =? 0x1680)
   || (0x2000 <=? c) && (c <=? 0x200A)
   || (c =? 0x2028) || (c =? 0x2029) || (c =? 0x202F)
   || (c =? 0x205F) || (c =? 0x3000))%N.

Fixpoint lstrip (s : str) : str :=
  match s with
  | c :: s' => if isspace c then lstrip s' else s
  | [] => []
  end.

Definition rstrip (s : str) : str := rev (lstrip (rev s)).

(** [s.strip()] *)
Definition strip (s : str) : str := rstrip (lstrip s).

Fixpoint eqb (a b : str) : bool :=
  match a, b with
  | [], [] => true
  | x :: a', y :: b' => (x =? y)%N && eqb a' b'
  | _, _ => false
  end.
End PyStr.

(* ===================================================================== *)
(** ** NumPy arrays                                                       *)
(* ===================================================================== *)

Module Np.
Local Open Scope Q_scope.

(** An n-dimensional array: its shape and its element at an index.
    [item] is read only at indices inside [shape]. *)
Record ndarray := { shape : list nat; item : list nat -> Q }.

Definition sumQ (l : list Q) : Q := fold_right Qplus 0 l.

(** All indices of a shape, in row-major order. *)
Fixpoint indices (s : list nat) : list (list nat) :=
  match s with
  | [] => [[]]
  | n :: s' => flat_map (fun i => map (cons i) (indices s')) (seq 0 n)
  end.

Definition size (a : ndarray) : nat := fold_right Nat.mul 1%nat (shape a).

(** [a.mean()] over all elements. *)
Definition mean (a : ndarray) : Q :=
  sumQ (map (item a) (indices (shape a))) / inject_Z (Z.of_nat (size a)).

(** [a[:, :, c]] of a three-dimensional array. *)
Definition channel (a : ndarray) (c : nat) : ndarray :=
  {| shape := firstn 2 (shape a);
     item idx := item a (idx ++ [c]) |}.

(** [np.expand_dims(a, axis=0)] *)
Definition expand_dims0 (a : ndarray) : ndarray :=
  {| shape := 1%nat :: shape a; item idx := item a (tl idx) |}.

(** [a /= d] *)
Definition divide (a : ndarray) (d : Q) : ndarray :=
  {| shape := shape a; item idx := item a idx / d |}.

Definition ValueError (msg : string) : exn := Exception "ValueError" msg.
Definition IndexError (msg : string) : exn := Exception "IndexError" msg.
Definition AxisError (msg : string) : exn := Exception "AxisError" msg.

Definition shape_eqb (s t : list nat) : bool := bool_decide (s = t).

(** [np.array(l)] of a list of arrays: stacks arrays of one shape along a
    new leading axis, and refuses a ragged list. *)
Definition array (l : list ndarray) : outcome ndarray :=
  match l with
  | [] => Return {| shape := [0%nat]; item _ := 0 |}
  | a0 :: _ =>
      if forallb (fun a => shape_eqb (shape a) (shape a0)) l
      then Return {| shape := length l :: shape a0;
                     item idx := match idx with
                                 | i :: idx' => item (nth i l a0) idx'
                                 | [] => 0
                                 end |}
      else Raise (ValueError "setting an array element with a sequence. The requested array has an inhomogeneous shape")
  end.

(** [np.mean(a, axis=0)] *)
Definition mean_axis0 (a : ndarray) : outcome ndarray :=
  match shape a with
  | n :: s =>
      Return {| shape := s;
                item idx := sumQ (map (fun i => item a (i :: idx)) (seq 0 n))
                            / inject_Z (Z.of_nat n) |}
  | [] => Raise (AxisError "axis 0 is out of bounds for array of dimension 0")
  end.

(** The first index of the largest of [f 0 .. f (n-1)], scanning left to
    right as [argmax] does. *)
Definition argmax_row (f : nat -> Q) (n : nat) : nat :=
  fold_left (fun best j => if QPy.gtb (f j) (f best) then j else best)
            (seq 1 (n - 1)) 0%nat.

(** [np.argmax(a, axis=1)] of a two-dimensional array, the rank of an
    average of [(batch, classes)] predictions; an array without a second
    axis is refused, and higher ranks are not given a meaning here. *)
Definition argmax_axis1 (a : ndarray) : outcome (list nat) :=
  match shape a with
  | [b; c] =>
      if (c =? 0)%nat
      then Raise (ValueError "attempt to get argmax of an empty sequence")
      else Return (map (fun i => argmax_row (fun j => item a [i; j]) c) (seq 0 b))
  | _ => Raise (AxisError "axis 1 is out of bounds for array of dimension")
  end.

(** [v[0]] *)
Definition first {A} (v : list A) : outcome A :=
  match v with
  | x :: _ => Return x
  | [] => Raise (IndexError "index 0 is out of bounds for axis 0 with size 0")
  end.
End Np.

(* ===================================================================== *)
(** ** sugarcane-disease-api/prediction.py                                *)
(* ===================================================================== *)

Module Sugarcane.
Import Np.
Local Open Scope Q_scope.

(** An RGB pixel of a decoded image: three bytes. *)
Definition rgb : Type := byte * byte * byte.

(** A decoded image of the size that was asked for: its pixel at a row and
    a column. *)
Definition image : Type := nat -> nat -> rgb.

Definition channel_of (p : rgb) (c : nat) : Q :=
  let '(r, g, b) := p in
  inject_Z (Z.of_N (Byte.to_N (match c with 0%nat => r | 1%nat => g | _ => b end))).

(** [np.asarray(im, dtype=np.float32)] and [img_to_array(img)] of an image
    of [h] rows and [w] columns: shape [(h, w, 3)]. *)
Definition asarray (h w : nat) (im : image) : ndarray :=
  {| shape := [h; w; 3%nat];
     item idx := match idx with
                 | [i; j; c] => channel_of (im i j) c
                 | _ => 0
                 end |}.

(** A Keras model: [m.predict(x)]. *)
Definition model : Type := ndarray -> outcome ndarray.

(** What the service reads from its environment. *)
Record world := {
  (** [os.path.exists(path)] *)
  path_exists : string -> bool;
  (** [load_model(path)] *)
  load_model : string -> outcome model;
  (** [os.getenv(name)], [None] when unset *)
  getenv : string -> option PyStr.str;
  (** [Image.open(path)], [convert('RGB')] and [resize(size)] under [with] *)
  image_open_rgb : string -> nat * nat -> outcome image;
  (** [load_img(path, target_size=size)] *)
  load_img : string -> nat * nat -> outcome image
}.

Inductive event :=
| EvImageOpen (path : string)
| EvLoadImg (path : string) (target_size : nat * nat)
| EvPredict (x : ndarray).

(** *** Module start-up (source lines 9-35) *)

Definition _try_load (w : world) (path : string) : option model :=
  if path_exists w path then
    match load_model w path with
    | Return m => Some m
    | Raise _ => None
    end
  else None.

Definition _candidates : list string :=
  [ "./models/model2_84percentacc.h5";
    "./models/82_test_acc.h5";
    "./models/mobilenet_model.keras";
    "./models/inceptionv3_80.h5" ]%string.

Definition models (w : world) : list model :=
  flat_map (fun p => match _try_load w p with
                     | Some m => [m]
                     | None => []
                     end) _candidates.

Definition MODEL_PRESENT (models : list model) : bool :=
  (0 <? length models)%nat.

Definition DEMO_MODE (w : world) : bool :=
  PyStr.eqb
    (PyStr.strip (default (PyStr.lit "") (getenv w "SUGARCANE_DEMO_MODE")))
    (PyStr.lit "1").

(** *** The decision rules of [heuristic_predict] (source lines 78-97) *)

Definition brightness (Rm Gm Bm : Q) : Q := (Rm + Gm + Bm) / 3.

Definition heuristic_rules (Rm Gm Bm : Q) : Z :=
  let brightness := brightness Rm Gm Bm in
  (* Healthy: green dominance *)
  if QPy.geb (Gm - QPy.max Rm Bm) 20 then 0%Z
  (* Yellow: R and G high, B low *)
  else if QPy.gtb Rm 120 && QPy.gtb Gm 120 && QPy.ltb Bm 100 then 4%Z
  (* RedRot: red dominance *)
  else if QPy.geb (Rm - QPy.max Gm Bm) 20 then 2%Z
  (* Rust: brownish, moderate brightness *)
  else if (QPy.gtb Rm Gm && QPy.gtb Gm Bm)
          && (QPy.ltb 60 brightness && QPy.ltb brightness 180) then 3%Z
  (* Mosaic: catch-all *)
  else 1%Z.

(** The channel means the rules are applied to (source lines 75-77). *)
Definition rgb_means (arr : ndarray) : Q * Q * Q :=
  (mean (channel arr 0), mean (channel arr 1), mean (channel arr 2)).

(** [heuristic_predict(image_path)].  The [try] block either binds [arr]
    or the handler returns 0 at once. *)
Definition heuristic_predict (w : world) (image_path : string) : M event Z :=
  r <- try_except
         (im <- call (EvImageOpen image_path)
                     (image_open_rgb w image_path (128, 128)%nat) ;;
          ret (inl (asarray 128 128 im)))
         (fun _ => ret (inr 0%Z)) ;;
  match r with
  | inr early => ret early
  | inl arr =>
      let '(Rm, Gm, Bm) := rgb_means arr in
      ret (heuristic_rules Rm Gm Bm)
  end.

(** [preprocess_image(image_path, target_size=(224, 224))] *)
Definition preprocess_image (w : world) (image_path : string)
           (target_size : nat * nat) : M event ndarray :=
  img <- call (EvLoadImg image_path target_size)
              (load_img w image_path target_size) ;;
  let img_array := asarray (fst target_size) (snd target_size) img in
  let img_array := expand_dims0 img_array in
  let img_array := divide img_array 255 in
  ret img_array.

(** [predict_sugarcane(filepath)], with the module globals [models] and
    [DEMO_MODE] as arguments. *)
Definition predict_sugarcane (w : world) (models : list model)
           (DEMO_MODE : bool) (filepath : string) : Rand.dist (M event Z) :=
  if negb (MODEL_PRESENT models) || (match models with [] => true | _ => false end)
  then
    if DEMO_MODE
    then map (fun r => ret r) (Rand.randint 0 5)
    else Rand.certainly (heuristic_predict w filepath)
  else
    Rand.certainly
      (x <- preprocess_image w filepath (224, 224)%nat ;;
       preds <- for_each (fun m : model => call (EvPredict x) (m x)) models ;;
       preds_array <- lift (array preds) ;;
       avg_preds <- lift (mean_axis0 preds_array) ;;
       am <- lift (argmax_axis1 avg_preds) ;;
       label_idx <- lift (first am) ;;
       ret (Z.of_nat label_idx)).

(** The service as it runs: globals computed at import, then a call. *)
Definition service (w : world) (filepath : string) : Rand.dist (M event Z) :=
  predict_sugarcane w (models w) (DEMO_MODE w) filepath.

(** The answer of a run is the class [v]. *)
Definition answers (v : Z) (run : M event Z) : bool :=
  match result run with
  | Return r => (r =? v)%Z
  | Raise _ => false
  end.

(** *** The rule table of the specification (section 4.3, step 4) *)

Definition spec_rules : list ((Q * Q * Q -> bool) * Z) :=
  [ (fun '(Rm, Gm, Bm) => QPy.geb (Gm - QPy.max Rm Bm) 20, 0%Z);
    (fun '(Rm, Gm, Bm) => QPy.gtb Rm 120 && QPy.gtb Gm 120 && QPy.ltb Bm 100, 4%Z);
    (fun '(Rm, Gm, Bm) => QPy.geb (Rm - QPy.max Gm Bm) 20, 2%Z);
    (fun '(Rm, Gm, Bm) =>
       (QPy.gtb Rm Gm && QPy.gtb Gm Bm)
       && (QPy.ltb 60 (brightness Rm Gm Bm) && QPy.ltb (brightness Rm Gm Bm) 180), 3%Z);
    (fun _ => true, 1%Z) ].

(** Rule [i] fires on a triple: its guard holds and no earlier guard does. *)
Definition fires (i : nat) (t : Q * Q * Q) : Prop :=
  (exists g c, spec_rules !! i = Some (g, c) /\ g t = true) /\
  (forall j g c, (j < i)%nat -> spec_rules !! j = Some (g, c) -> g t = false).

Definition class_of_rule (i : nat) : Z :=
  match spec_rules !! i with Some (_, c) => c | None => (-1)%Z end.

(** *** The ensemble average of the specification (section 3)

    Entry [j] of the elementwise arithmetic mean of the models' probability
    vectors, each the row of the one image of the batch. *)
Definition spec_average (outs : list ndarray) (j : nat) : Q :=
  sumQ (map (fun p => item p [0; j]%nat) outs) / inject_Z (Z.of_nat (length outs)).

(** The class each model would pick alone. *)
Definition solo_votes (outs : list ndarray) (classes : nat) : list nat :=
  map (fun p => argmax_row (fun j => item p [0; j]%nat) classes) outs.

End Sugarcane.

(* ===================================================================== *)
(** ** crop-rotation-api/app.py                                           *)
(* ===================================================================== *)

Module Crop.
Local Open Scope string_scope.

(** A value decoded from JSON. *)
#[warnings="-register-all"] Inductive pyval :=
| PNone
| PBool (b : bool)
| PInt (z : Z)
| PFloat (q : Q)
| PStr (s : string)
| PList (l : list pyval)
| PDict (d : gmap string pyval).

Definition type_name (v : pyval) : string :=
  match v with
  | PNone => "NoneType"
  | PBool _ => "bool"
  | PInt _ => "int"
  | PFloat _ => "float"
  | PStr _ => "str"
  | PList _ => "list"
  | PDict _ => "dict"
  end.

Definition TypeError (msg : string) : exn := Exception "TypeError" msg.
Definition AttributeError (msg : string) : exn := Exception "AttributeError" msg.

(** The value a dictionary gives for a key, [None] when it has none. *)
Definition field (d : gmap string pyval) (key : string) : pyval :=
  default PNone (d !! key).

(** [data.get(key)]: a method of dictionaries only. *)
Definition get (data : pyval) (key : string) : outcome pyval :=
  match data with
  | PDict d => Return (field d key)
  | _ => Raise (AttributeError
                  ("'" ++ type_name data ++ "' object has no attribute 'get'"))
  end.

(** Lists and dictionaries cannot be hashed. *)
Definition hashable (v : pyval) : bool :=
  match v with
  | PList _ | PDict _ => false
  | _ => true
  end.

(** [table.get(key, dflt)] on a table keyed by strings: the key is hashed
    first, and only a string can be equal to a key of the table. *)
Definition table_get (table : gmap string Z) (key : pyval) (dflt : Z) : outcome Z :=
  if hashable key then
    match key with
    | PStr s => Return (default dflt (table !! s))
    | _ => Return dflt
    end
  else Raise (TypeError ("unhashable type: '" ++ type_name key ++ "'")).

Definition previous_crop_mapping : gmap string Z :=
  {[ "Groundnut" := 1; "Millets" := 2; "Wheat" := 3; "Maize" := 4;
     "Cotton" := 5; "Sorghum" := 6; "Barley" := 7 ]}%Z.

Definition soil_type_mapping : gmap string Z :=
  {[ "Loamy" := 1; "Clayey" := 2; "Sandy" := 3; "Saline" := 4 ]}%Z.

Definition crop_mapping : gmap Z string :=
  {[ 1%Z := "Wheat"; 2%Z := "Rice"; 3%Z := "Millets"; 4%Z := "Cotton";
     5%Z := "Groundnut"; 6%Z := "Maize"; 7%Z := "Sorghum"; 8%Z := "Barley" ]}.

(** [pd.DataFrame([{...}])]: the rows, each with its columns in order. *)
Definition dataframe : Type := list (list (string * pyval)).

(** The loaded classifier: [crop_model.predict(input_data)] gives the
    class index of each row. *)
Definition model : Type := dataframe -> outcome (list Z).

Inductive event :=
| EvRequestJson
| EvPredict (input_data : dataframe).

(** What a Flask view returns: a JSON object and a status. *)
Record response := { body : list (string * string); status : Z }.

(** [jsonify(obj)], sent with status 200 unless the view says otherwise. *)
Definition jsonify (obj : list (string * string)) : response :=
  {| body := obj; status := 200 |}.

(** [return resp, code] *)
Definition with_status (r : response) (code : Z) : response :=
  {| body := body r; status := code |}.

(** Module start-up (source lines 10-14): [joblib.load] under [try], the
    global is [None] when loading raised. *)
Definition load_crop_model (joblib_load : outcome model) : option model :=
  match joblib_load with
  | Return m => Some m
  | Raise _ => None
  end.

(** The [try] block of [crop_recommendation()], with the module global
    [crop_model] ([None] when the artifact did not load) and the request's
    [json] attribute as arguments.  The two [print] calls write to the
    console only and are left out. *)
Definition crop_recommendation_try (crop_model : option model)
           (request_json : outcome pyval) : M event response :=
  match crop_model with
  | None =>
      ret (with_status
             (jsonify [("error", "Model not loaded. Ensure crop_rotation_recommendation_model.pkl exists.")])
             500)
  | Some crop_model =>
      data <- call EvRequestJson request_json ;;
      previous_crop <- lift (get data "Previous Crop") ;;
      soil_type <- lift (get data "Soil Type") ;;
      moisture_level <- lift (get data "Moisture Level") ;;
      nitrogen <- lift (get data "Nitrogen (N)") ;;
      phosphorus <- lift (get data "Phosphorus (P)") ;;
      potassium <- lift (get data "Potassium (K)") ;;
      pc <- lift (table_get previous_crop_mapping previous_crop (-1)) ;;
      st <- lift (table_get soil_type_mapping soil_type (-1)) ;;
      let input_data : dataframe :=
        [[ ("Previous Crop", PInt pc);
           ("Soil Type", PInt st);
           ("Moisture Level", moisture_level);
           ("Nitrogen (N)", nitrogen);
           ("Phosphorus (P)", phosphorus);
           ("Potassium (K)", potassium) ]] in
      prediction <- call (EvPredict input_data) (crop_model input_data) ;;
      p0 <- lift (Np.first prediction) ;;
      match crop_mapping !! p0 with
      | Some recommended_crop =>
          ret (jsonify [("Recommended Crop", recommended_crop)])
      | None =>
          ret (jsonify [("Recommended Crop", "No prediction available")])
      end
  end.

(** [crop_recommendation()]: the block above under
    [except Exception as e: return jsonify({'error': str(e)})]. *)
Definition crop_recommendation (crop_model : option model)
           (request_json : outcome pyval) : M event response :=
  try_except (crop_recommendation_try crop_model request_json)
             (fun e => ret (jsonify [("error", str_exn e)])).

(** *** Vocabulary of the specification *)

(** A category field that is absent, or a string outside the table. *)
Definition unknown_category (table : gmap string Z) (v : option pyval) : Prop :=
  v = None \/ exists s, v = Some (PStr s) /\ table !! s = None.

(** The single row the handler assembles from codes [pc] and [st] and the
    numeric fields of the request. *)
Definition feature_frame (pc st : Z) (d : gmap string pyval) : dataframe :=
  [[ ("Previous Crop", PInt pc);
     ("Soil Type", PInt st);
     ("Moisture Level", field d "Moisture Level");
     ("Nitrogen (N)", field d "Nitrogen (N)");
     ("Phosphorus (P)", field d "Phosphorus (P)");
     ("Potassium (K)", field d "Potassium (K)") ]].

(** The error body for an exception. *)
Definition error_response (e : exn) : response :=
  jsonify [("error", str_exn e)].

End Crop.


(* ===================================================================== *)
(** ** Concrete worlds, images and models for the examples                *)
(* ===================================================================== *)

Module Fixtures.
Import Np.
Local Open Scope string_scope.

(** An image of one colour. *)
Definition solid (p : Sugarcane.rgb) : Sugarcane.image := fun _ _ => p.

Definition FileNotFoundError (path : string) : exn :=
  Exception "FileNotFoundError" ("No such file or directory: '" ++ path ++ "'").

(** A machine without model files, with the given environment value, on
    which every image path decodes to [im], or to nothing. *)
Definition world_of (env : option PyStr.str) (im : option Sugarcane.image)
  : Sugarcane.world :=
  {| Sugarcane.path_exists := fun _ => false;
     Sugarcane.load_model := fun p => Raise (FileNotFoundError p);
     Sugarcane.getenv := fun name =>
       if String.eqb name "SUGARCANE_DEMO_MODE" then env else None;
     Sugarcane.image_open_rgb := fun p _ =>
       match im with Some i => Return i | None => Raise (FileNotFoundError p) end;
     Sugarcane.load_img := fun p _ =>
       match im with Some i => Return i | None => Raise (FileNotFoundError p) end |}.

(** Rm = 140, Gm = 100, Bm = 60. *)
Definition brown : Sugarcane.rgb := (x8c, x64, x3c).

(** Rm = 50, Gm = 200, Bm = 50. *)
Definition green : Sugarcane.rgb := (x32, xc8, x32).

(** A model that answers every batch of one image with the probabilities
    [ps]: an array of shape [(1, len(ps))]. *)
Definition probs_model (ps : list Q) : Sugarcane.model :=
  fun _ => Return {| shape := [1%nat; length ps];
                     item idx := match idx with
                                 | [_; j] => nth j ps 0%Q
                                 | _ => 0%Q
                                 end |}.

(** Two models leaning to class 0 and one sure of class 1. *)
Definition split_ensemble : list Sugarcane.model :=
  [ probs_model [6 # 10; 4 # 10; 0; 0; 0]%Q;
    probs_model [6 # 10; 4 # 10; 0; 0; 0]%Q;
    probs_model [0; 1; 0; 0; 0]%Q ].

(** A classifier that answers class [idx] for every row it is given. *)
Definition always (idx : Z) : Crop.model := fun rows => Return (map (fun _ => idx) rows).

(** A classifier that refuses rows with a missing number, and answers
    class 1 otherwise. *)
Definition strict (rows : Crop.dataframe) : outcome (list Z) :=
  if forallb (forallb (fun kv => match snd kv with Crop.PNone => false | _ => true end)) rows
  then Return (map (fun _ => 1) rows)
  else Raise (Exception "ValueError" "Input contains NaN").

(** A request with both categories and no numeric field. *)
Definition wheat_on_loam : gmap string Crop.pyval :=
  {[ "Previous Crop" := Crop.PStr "Wheat"; "Soil Type" := Crop.PStr "Loamy" ]}.

(** A request with categories the tables do not know. *)
Definition rice_on_peat : gmap string Crop.pyval :=
  {[ "Previous Crop" := Crop.PStr "Rice"; "Soil Type" := Crop.PStr "Peaty";
     "Moisture Level" := Crop.PInt 40 ]}.

End Fixtures.

(* ===================================================================== *)
(** ** Further cases for the examples                                     *)
(* ===================================================================== *)

Module Cases.
Import Np.
Local Open Scope string_scope.

(** A model whose [predict] raises. *)
Definition broken_model : Sugarcane.model :=
  fun _ => Raise (Exception "InvalidArgumentError" "Graph execution error").

(** A machine on which exactly the model files [present] exist, each
    loading as [m] unless it is listed in [corrupt]. *)
Definition machine (present corrupt : list string) (m : Sugarcane.model)
  : Sugarcane.world :=
  {| Sugarcane.path_exists := fun p => existsb (String.eqb p) present;
     Sugarcane.load_model := fun p =>
       if existsb (String.eqb p) corrupt
       then Raise (Exception "OSError" "Unable to open file")
       else Return m;
     Sugarcane.getenv := fun _ => None;
     Sugarcane.image_open_rgb := fun p _ => Raise (Fixtures.FileNotFoundError p);
     Sugarcane.load_img := fun p _ => Raise (Fixtures.FileNotFoundError p) |}.

(** A classifier that answers nothing. *)
Definition silent : Crop.model := fun _ => Return [].

(** A classifier that answers class 2 for the first row and more after it. *)
Definition chatty : Crop.model := fun _ => Return [2; 7; 7].

(** [Fixtures.wheat_on_loam] with fields the handler does not know. *)
Definition wheat_on_loam_annotated : gmap string Crop.pyval :=
  <[ "Farmer" := Crop.PStr "A. Rao" ]>
    (<[ "Notes" := Crop.PList [Crop.PInt 1; Crop.PInt 2] ]> Fixtures.wheat_on_loam).

(** Two answers of a classifier that the handler cannot tell apart: the
    same exception, or predictions with the same first entry. *)
Definition same_head (a b : outcome (list Z)) : Prop :=
  match a, b with
  | Raise e, Raise e' => e = e'
  | Return [], Return [] => True
  | Return (x :: _), Return (y :: _) => x = y
  | _, _ => False
  end.

(** The six keys of the request that the handler reads. *)
Definition request_keys : list string :=
  [ "Previous Crop"; "Soil Type"; "Moisture Level";
    "Nitrogen (N)"; "Phosphorus (P)"; "Potassium (K)" ].

End Cases.

(* ===================================================================== *)
(** ** The channel means as the specification states them                 *)
(* ===================================================================== *)

Module Stats.
Import Np Sugarcane.
Local Open Scope Q_scope.

(** Section 4.3, step 3: the mean intensity of channel [c] over all pixels
    of an image of [h] rows and [w] columns, row by row. *)
Definition pixel_mean (h w : nat) (im : image) (c : nat) : Q :=
  sumQ (flat_map (fun i => map (fun j => channel_of (im i j) c) (seq 0 w))
                 (seq 0 h))
  / inject_Z (Z.of_nat (h * w)).

(** Rm = 200, Gm = 80, Bm = 80. *)
Definition reddish : rgb := (xc8, x50, x50).

(** Rm = 150, Gm = 150, Bm = 50. *)
Definition yellowish : rgb := (x96, x96, x32).

(** Rm = 100, Gm = 100, Bm = 100. *)
Definition greyish : rgb := (x64, x64, x64).

End Stats.

(* ===================================================================== *)
(** ** Words of the specification about the feature row                   *)
(* ===================================================================== *)

Module RowWords.
Import Crop.
Local Open Scope string_scope.

(** The four numeric fields of a request. *)
Definition numeric_keys : list string :=
  [ "Moisture Level"; "Nitrogen (N)"; "Phosphorus (P)"; "Potassium (K)" ].

(** The value a row holds in the column of a given name. *)
Fixpoint column (name : string) (row : list (string * pyval)) : option pyval :=
  match row with
  | [] => None
  | (k, v) :: row' => if String.eqb k name then Some v else column name row'
  end.

(** The glossary's sentinel: "a fixed out-of-domain value (-1, or a fixed
    label string)". *)
Definition spec_sentinel (v : pyval) : Prop :=
  v = PInt (-1) \/ exists label, v = PStr label.

End RowWords.

(* ===================================================================== *)
(** ** The ensemble branch in float32                                     *)
(* ===================================================================== *)

(** The tensors of the ensemble branch are float32 arrays: the image from
    [img_to_array], the models' outputs, their [np.mean] and what
    [np.argmax] compares.  This module reads lines 47-54 and 99-109 with
    that arithmetic, every operation rounded to nearest, ties to even.  The
    module [Sugarcane] reads the same lines over exact rationals. *)

Module F32.
Import Py.
Local Open Scope Z_scope.

(** IEEE 754 binary32: 24 bits of precision, exponents below 128. *)
Definition prec : Z := 24.
Definition emax : Z := 128.

Definition float32 : Type := spec_float.

Definition add : float32 -> float32 -> float32 := SFadd prec emax.
Definition div : float32 -> float32 -> float32 := SFdiv prec emax.
Definition leb : float32 -> float32 -> bool := SFleb.
Definition ltb : float32 -> float32 -> bool := SFltb.

Definition isnan (x : float32) : bool :=
  match x with S754_nan => true | _ => false end.

(** The float32 nearest to [m * 2^e]. *)
Definition of_scaled (m e : Z) : float32 := binary_normalize prec emax m e false.

(** The float32 nearest to an integer. *)
Definition of_Z (z : Z) : float32 := of_scaled z 0.

Definition zero : float32 := S754_zero false.
Definition one : float32 := of_Z 1.

(** The rational a finite float32 stands for. *)
Definition to_Q (x : float32) : Q :=
  match x with
  | S754_finite s m e =>
      let mag := match e with
                 | Zneg p => Zpos m # Pos.pow 2 p
                 | _ => inject_Z (Zpos m * 2 ^ e)
                 end in
      if s then Qopp mag else mag
  | _ => 0%Q
  end.

(** A float32 array: its shape and its element at an index. *)
Record ndarray := { shape : list nat; item : list nat -> float32 }.

Definition byte_of (p : Sugarcane.rgb) (c : nat) : byte :=
  let '(r, g, b) := p in
  match c with 0%nat => r | 1%nat => g | _ => b end.

(** [img_to_array(img)] of an image of [h] rows and [w] columns: the bytes
    as float32, shape [(h, w, 3)]. *)
Definition img_to_array (h w : nat) (img : Sugarcane.image) : ndarray :=
  {| shape := [h; w; 3%nat];
     item idx := match idx with
                 | [i; j; c] => of_Z (Z.of_N (Byte.to_N (byte_of (img i j) c)))
                 | _ => zero
                 end |}.

(** [np.expand_dims(a, axis=0)] *)
Definition expand_dims0 (a : ndarray) : ndarray :=
  {| shape := 1%nat :: shape a; item idx := item a (tl idx) |}.

(** [a /= d] *)
Definition divide (a : ndarray) (d : float32) : ndarray :=
  {| shape := shape a; item idx := div (item a idx) d |}.

(** [np.array(l)] of a list of arrays of one shape. *)
Definition array (l : list ndarray) : outcome ndarray :=
  match l with
  | [] => Return {| shape := [0%nat]; item _ := zero |}
  | a0 :: _ =>
      if forallb (fun a => Np.shape_eqb (shape a) (shape a0)) l
      then Return {| shape := length l :: shape a0;
                     item idx := match idx with
                                 | i :: idx' => item (nth i l a0) idx'
                                 | [] => zero
                                 end |}
      else Raise (Np.ValueError "setting an array element with a sequence. The requested array has an inhomogeneous shape")
  end.

(** [np.add.reduce] along an axis: from the identity 0, one float32
    addition per entry, in order. *)
Definition sum (l : list float32) : float32 := fold_left add l zero.

(** [np.mean(a, axis=0)]: the float32 sum along the first axis, then one
    float32 division by the number of entries.  Where numpy takes the
    quotient in double and stores it as float32, the stored value is the
    same: a second rounding from 53 to 24 bits does not change a
    quotient. *)
Definition mean_axis0 (a : ndarray) : outcome ndarray :=
  match shape a with
  | n :: s =>
      Return {| shape := s;
                item idx := div (sum (map (fun i => item a (i :: idx)) (seq 0 n)))
                                (of_Z (Z.of_nat n)) |}
  | [] => Raise (Np.AxisError "axis 0 is out of bounds for array of dimension 0")
  end.

(** [np.argmax] of [f 0 .. f (n-1)]: an entry replaces the best so far
    when it is not [<=] it, and the scan stops at a NaN. *)
Definition argmax_row (f : nat -> float32) (n : nat) : nat :=
  fold_left (fun best j =>
               if isnan (f best) then best
               else if negb (leb (f j) (f best)) then j else best)
            (seq 1 (n - 1)) 0%nat.

(** [np.argmax(a, axis=1)] of a two-dimensional array. *)
Definition argmax_axis1 (a : ndarray) : outcome (list nat) :=
  match shape a with
  | [b; c] =>
      if (c =? 0)%nat
      then Raise (Np.ValueError "attempt to get argmax of an empty sequence")
      else Return (map (fun i => argmax_row (fun j => item a [i; j]) c) (seq 0 b))
  | _ => Raise (Np.AxisError "axis 1 is out of bounds for array of dimension")
  end.

(** A Keras model: [m.predict(x)]. *)
Definition model : Type := ndarray -> outcome ndarray.

Inductive event :=
| EvFallback (ev : Sugarcane.event)
| EvLoadImg (path : string) (target_size : nat * nat)
| EvPredict (x : ndarray).

(** [preprocess_image(image_path, target_size=(224, 224))] *)
Definition preprocess_image (w : Sugarcane.world) (image_path : string)
           (target_size : nat * nat) : M event ndarray :=
  bind (call (EvLoadImg image_path target_size)
             (Sugarcane.load_img w image_path target_size))
       (fun img =>
          let img_array := img_to_array (fst target_size) (snd target_size) img in
          let img_array := expand_dims0 img_array in
          let img_array := divide img_array (of_Z 255) in
          ret img_array).

(** A run of the fallbacks, which work without these tensors. *)
Definition fallback (run : M Sugarcane.event Z) : M event Z :=
  (map EvFallback (fst run), snd run).

(** [predict_sugarcane(filepath)], with the module globals [models] and
    [DEMO_MODE] as arguments. *)
Definition predict_sugarcane (w : Sugarcane.world) (models : list model)
           (DEMO_MODE : bool) (filepath : string) : Rand.dist (M event Z) :=
  if negb (0 <? length models)%nat || (match models with [] => true | _ => false end)
  then map fallback (Sugarcane.predict_sugarcane w [] DEMO_MODE filepath)
  else
    Rand.certainly
      (bind (preprocess_image w filepath (224, 224)%nat) (fun x =>
       bind (for_each (fun m : model => call (EvPredict x) (m x)) models) (fun preds =>
       bind (lift (array preds)) (fun preds_array =>
       bind (lift (mean_axis0 preds_array)) (fun avg_preds =>
       bind (lift (argmax_axis1 avg_preds)) (fun am =>
       bind (lift (Np.first am)) (fun label_idx =>
       ret (Z.of_nat label_idx)))))))).

(** *** Words of the specification *)

(** Entry [j] of the average as [np.mean] computes it. *)
Definition mean32 (outs : list ndarray) (j : nat) : float32 :=
  div (sum (map (fun p => item p [0; j]%nat) outs)) (of_Z (Z.of_nat (length outs))).

(** Entry [j] of the elementwise arithmetic mean of the models' vectors,
    as the specification states it. *)
Definition arithmetic_mean (outs : list ndarray) (j : nat) : Q :=
  (Np.sumQ (map (fun p => to_Q (item p [0; j]%nat)) outs)
   / inject_Z (Z.of_nat (length outs)))%Q.

(** The class each model would pick alone. *)
Definition solo_votes (outs : list ndarray) (classes : nat) : list nat :=
  map (fun p => argmax_row (fun j => item p [0; j]%nat) classes) outs.

(** What the scan has found after the entries [0 .. m]: [b] is the first
    NaN, or there is no NaN and [b] is the first largest entry. *)
Definition found (f : nat -> float32) (m b : nat) : Prop :=
  (b <= m)%nat
  /\ (forall j, (j < b)%nat -> isnan (f j) = false)
  /\ (isnan (f b) = true
      \/ ((forall j, (j <= m)%nat -> leb (f j) (f b) = true)
          /\ (forall j, (j < b)%nat -> ltb (f j) (f b) = true))).

(** *** Examples *)

(** A model that answers every batch of one image with the vector [ps]. *)
Definition vector_model (ps : list float32) : model :=
  fun _ => Return {| shape := [1%nat; length ps];
                     item idx := match idx with
                                 | [_; j] => nth j ps zero
                                 | _ => zero
                                 end |}.

(** 1/2, and the float32 just below it, 1/2 - 2^-25. *)
Definition half : float32 := S754_finite false 8388608 (-24).
Definition below_half : float32 := S754_finite false 16777215 (-25).

(** Two models that all but agree: the second gives class 0 a little less
    than a half. *)
Definition near_tie : list (list float32) :=
  [ [half; half; zero; zero; zero]; [below_half; half; zero; zero; zero] ].

(** Two models leaning to class 0 (5/8 against 3/8) and one sure of
    class 1. *)
Definition split_vote : list (list float32) :=
  [ [of_scaled 5 (-3); of_scaled 3 (-3); zero; zero; zero];
    [of_scaled 5 (-3); of_scaled 3 (-3); zero; zero; zero];
    [zero; one; zero; zero; zero] ].

End F32.

(* ===================================================================== *)
(** * Properties                                                          *)
(* ===================================================================== *)

(** ** Computations *)

Module PyFacts.

Lemma bind_return {E A B} (t : list E) (a : A) (k : A -> M E B) :
  bind (t, Return a) k = (t ++ fst (k a), snd (k a)).
Proof. unfold bind. destruct (k a). reflexivity. Qed.

Lemma bind_raise {E A B} (t : list E) (e : exn) (k : A -> M E B) :
  bind (t, Raise e) k = (t, Raise e).
Proof. reflexivity. Qed.

Lemma bind_lift_return {E A B} (a : A) (k : A -> M E B) :
  bind (lift (Return a)) k = k a.
Proof. unfold lift. rewrite bind_return. destruct (k a). reflexivity. Qed.

Lemma bind_lift_raise {E A B} (e : exn) (k : A -> M E B) :
  bind (lift (Raise e)) k = ([], Raise e).
Proof. reflexivity. Qed.

End PyFacts.

(** ** Comparisons *)

Module QPyFacts.
Import QPy.
Local Open Scope Q_scope.

Lemma geb_spec a b : geb a b = true <-> b <= a.
Proof. unfold geb. apply Qle_bool_iff. Qed.

Lemma ltb_spec a b : ltb a b = true <-> a < b.
Proof.
  unfold ltb. rewrite negb_true_iff. split.
  - intros H. apply Qnot_le_lt. intros Hle.
    apply Qle_bool_iff in Hle. congruence.
  - intros H. destruct (Qle_bool b a) eqn:Hb; [|reflexivity].
    apply Qle_bool_iff in Hb. exfalso. exact (Qlt_not_le _ _ H Hb).
Qed.

Lemma gtb_spec a b : gtb a b = true <-> b < a.
Proof. unfold gtb. apply ltb_spec. Qed.

Lemma ltb_false a b : ltb a b = false <-> b <= a.
Proof. unfold ltb. rewrite negb_false_iff. apply Qle_bool_iff. Qed.

Lemma gtb_false a b : gtb a b = false <-> a <= b.
Proof. unfold gtb. apply ltb_false. Qed.

Lemma max_ge_l a b : a <= max a b.
Proof.
  unfold max. destruct (gtb b a) eqn:H.
  - apply gtb_spec in H. apply Qlt_le_weak. exact H.
  - apply Qle_refl.
Qed.

Lemma max_ge_r a b : b <= max a b.
Proof.
  unfold max. destruct (gtb b a) eqn:H.
  - apply Qle_refl.
  - apply gtb_false in H. exact H.
Qed.

(** The comparisons do not see how a rational is written. *)
#[export] Instance geb_proper : Proper (Qeq ==> Qeq ==> eq) geb.
Proof. intros a a' Ha b b' Hb. unfold geb. rewrite Ha, Hb. reflexivity. Qed.

#[export] Instance ltb_proper : Proper (Qeq ==> Qeq ==> eq) ltb.
Proof. intros a a' Ha b b' Hb. unfold ltb. rewrite Ha, Hb. reflexivity. Qed.

#[export] Instance gtb_proper : Proper (Qeq ==> Qeq ==> eq) gtb.
Proof. intros a a' Ha b b' Hb. unfold gtb. rewrite Ha, Hb. reflexivity. Qed.

#[export] Instance max_proper : Proper (Qeq ==> Qeq ==> Qeq) max.
Proof.
  intros a a' Ha b b' Hb. unfold max. rewrite Ha, Hb.
  destruct (gtb b' a'); assumption.
Qed.
End QPyFacts.

(** ** Arrays *)

Module NpFacts.
Import Np QPyFacts.
Local Open Scope Q_scope.

Lemma indices_length s idx : In idx (indices s) -> length idx = length s.
Proof.
  revert idx. induction s as [|n s IH]; intros idx Hin; cbn in Hin.
  - destruct Hin as [<- | []]. reflexivity.
  - apply in_flat_map in Hin. destruct Hin as (i & _ & Hin).
    apply in_map_iff in Hin. destruct Hin as (idx' & <- & Hin').
    cbn. f_equal. apply IH. exact Hin'.
Qed.

Lemma length_indices s : length (indices s) = fold_right Nat.mul 1%nat s.
Proof.
  induction s as [|n s IH]; [reflexivity|]. cbn [indices fold_right].
  assert (Hk : forall k,
             length (flat_map (fun i => map (cons i) (indices s)) (seq k n))
             = (n * fold_right Nat.mul 1 s)%nat).
  { induction n as [|n IHn]; intros k; cbn; [reflexivity|].
    rewrite length_app, length_map, IH, IHn. reflexivity. }
  apply Hk.
Qed.

Lemma sumQ_const {A} (f : A -> Q) (c : Q) (l : list A) :
  (forall x, In x l -> f x == c) ->
  sumQ (map f l) == inject_Z (Z.of_nat (length l)) * c.
Proof.
  induction l as [|x l IH]; intros Hc.
  - cbn. ring.
  - cbn [map sumQ fold_right length]. fold (sumQ (map f l)).
    rewrite IH by (intros y Hy; apply Hc; right; exact Hy).
    rewrite (Hc x) by (left; reflexivity).
    rewrite Nat2Z.inj_succ. unfold Z.succ. rewrite inject_Z_plus. ring.
Qed.

(** The mean of an array with one value everywhere is that value. *)
Lemma mean_const (a : ndarray) (c : Q) :
  (size a <> 0)%nat ->
  (forall idx, In idx (indices (shape a)) -> item a idx == c) ->
  mean a == c.
Proof.
  intros Hsz Hc. unfold mean. rewrite (sumQ_const _ c) by exact Hc.
  rewrite length_indices. fold (size a).
  rewrite (Qmult_comm _ c). apply Qdiv_mult_l.
  intros H0. apply Hsz.
  assert (Hz : Z.of_nat (size a) = 0%Z).
  { unfold Qeq in H0. cbn in H0. lia. }
  lia.
Qed.

End NpFacts.

(** ** The heuristic fallback classifier *)

Module HeuristicFacts.
Import Np Sugarcane QPyFacts NpFacts.
Local Open Scope Q_scope.

(** A lookup in the rule table at a known position. *)
Ltac rule_lookup H :=
  cbn in H; first [discriminate H | injection H as <- <-].

(** Every earlier guard of the table fails: one case per earlier rule. *)
Ltac earlier_fail :=
  let j := fresh "j" in let g := fresh "g" in let c := fresh "c" in
  let Hj := fresh "Hj" in let Hl := fresh "Hl" in
  intros j g c Hj Hl;
  repeat (destruct j as [|j]; [rule_lookup Hl; cbn; assumption |]);
  exfalso; lia.

Lemma fires_unique t i j : fires i t -> fires j t -> i = j.
Proof.
  intros [(gi & ci & Hi & Hgi) Hbi] [(gj & cj & Hj & Hgj) Hbj].
  destruct (lt_eq_lt_dec i j) as [[Hlt | ->] | Hlt]; [| reflexivity |].
  - rewrite (Hbj i gi ci Hlt Hi) in Hgi. discriminate.
  - rewrite (Hbi j gj cj Hlt Hj) in Hgj. discriminate.
Qed.

Lemma fires_bound t i : fires i t -> (i < 5)%nat.
Proof.
  intros [(g & c & Hl & _) _].
  apply lookup_lt_Some in Hl. exact Hl.
Qed.

(** The if-chain of the source picks the rule that fires. *)
Lemma heuristic_rules_fires Rm Gm Bm :
  exists i, fires i (Rm, Gm, Bm) /\ heuristic_rules Rm Gm Bm = class_of_rule i.
Proof.
  unfold heuristic_rules.
  destruct (QPy.geb (Gm - QPy.max Rm Bm) 20) eqn:H0.
  { exists 0%nat. split; [split|reflexivity].
    - eexists _, _. split; [reflexivity|]. exact H0.
    - intros j g c Hj. lia. }
  destruct (QPy.gtb Rm 120 && QPy.gtb Gm 120 && QPy.ltb Bm 100) eqn:H1.
  { exists 1%nat. split; [split|reflexivity].
    - eexists _, _. split; [reflexivity|]. exact H1.
    - earlier_fail. }
  destruct (QPy.geb (Rm - QPy.max Gm Bm) 20) eqn:H2.
  { exists 2%nat. split; [split|reflexivity].
    - eexists _, _. split; [reflexivity|]. exact H2.
    - earlier_fail. }
  destruct ((QPy.gtb Rm Gm && QPy.gtb Gm Bm)
            && (QPy.ltb 60 (brightness Rm Gm Bm)
                && QPy.ltb (brightness Rm Gm Bm) 180)) eqn:H3.
  { exists 3%nat. split; [split|reflexivity].
    - eexists _, _. split; [reflexivity|]. exact H3.
    - earlier_fail. }
  exists 4%nat. split; [split|reflexivity].
  - eexists _, _. split; [reflexivity|]. reflexivity.
  - earlier_fail.
Qed.

(** What [heuristic_predict] does with either answer of the decoder. *)
Lemma heuristic_predict_unfold w path :
  heuristic_predict w path =
  match image_open_rgb w path (128, 128)%nat with
  | Return im =>
      ([EvImageOpen path],
       Return (let '(Rm, Gm, Bm) := rgb_means (asarray 128 128 im) in
               heuristic_rules Rm Gm Bm))
  | Raise _ => ([EvImageOpen path], Return 0%Z)
  end.
Proof.
  unfold heuristic_predict.
  destruct (image_open_rgb w path (128, 128)%nat) as [im | e]; cbn.
  - destruct (rgb_means (asarray 128 128 im)) as [[Rm Gm] Bm]. reflexivity.
  - reflexivity.
Qed.

(** Equal triples get the same class, however the rationals are written. *)
Lemma heuristic_rules_compat Rm Gm Bm Rm' Gm' Bm' :
  Rm == Rm' -> Gm == Gm' -> Bm == Bm' ->
  heuristic_rules Rm Gm Bm = heuristic_rules Rm' Gm' Bm'.
Proof.
  intros HR HG HB. unfold heuristic_rules, brightness.
  assert (E0 : QPy.geb (Gm - QPy.max Rm Bm) 20
               = QPy.geb (Gm' - QPy.max Rm' Bm') 20)
    by (rewrite HR, HG, HB; reflexivity).
  assert (E1 : QPy.gtb Rm 120 && QPy.gtb Gm 120 && QPy.ltb Bm 100
               = QPy.gtb Rm' 120 && QPy.gtb Gm' 120 && QPy.ltb Bm' 100)
    by (rewrite HR, HG, HB; reflexivity).
  assert (E2 : QPy.geb (Rm - QPy.max Gm Bm) 20
               = QPy.geb (Rm' - QPy.max Gm' Bm') 20)
    by (rewrite HR, HG, HB; reflexivity).
  assert (E3 : (QPy.gtb Rm Gm && QPy.gtb Gm Bm)
               && (QPy.ltb 60 ((Rm + Gm + Bm) / 3)
                   && QPy.ltb ((Rm + Gm + Bm) / 3) 180)
               = (QPy.gtb Rm' Gm' && QPy.gtb Gm' Bm')
                 && (QPy.ltb 60 ((Rm' + Gm' + Bm') / 3)
                     && QPy.ltb ((Rm' + Gm' + Bm') / 3) 180))
    by (rewrite HR, HG, HB; reflexivity).
  cbv zeta. rewrite E0, E1, E2, E3. reflexivity.
Qed.

(** The channel means of an image of one colour are that colour. *)
Lemma solid_means (h w : nat) (p : rgb) :
  (0 < h)%nat -> (0 < w)%nat ->
  let '(Rm, Gm, Bm) := rgb_means (asarray h w (Fixtures.solid p)) in
  Rm == channel_of p 0 /\ Gm == channel_of p 1 /\ Bm == channel_of p 2.
Proof.
  intros Hh Hw. unfold rgb_means.
  assert (Hc : forall c, mean (channel (asarray h w (Fixtures.solid p)) c)
                         == channel_of p c).
  { intros c. apply mean_const.
    - unfold size. cbn. nia.
    - intros idx Hin. apply indices_length in Hin. cbn in Hin.
      destruct idx as [|i [|j [|k idx]]]; try discriminate Hin.
      reflexivity. }
  repeat split; apply Hc.
Qed.

Lemma brown_means :
  let '(Rm, Gm, Bm) :=
    rgb_means (asarray 128 128 (Fixtures.solid Fixtures.brown)) in
  Rm == 140 /\ Gm == 100 /\ Bm == 60.
Proof.
  pose proof (solid_means 128 128 Fixtures.brown) as H.
  destruct (rgb_means (asarray 128 128 (Fixtures.solid Fixtures.brown)))
    as [[Rm Gm] Bm].
  destruct H as (HR & HG & HB); [lia | lia |].
  rewrite HR, HG, HB. repeat split; reflexivity.
Qed.

Lemma brown_run :
  result (heuristic_predict
            (Fixtures.world_of None (Some (Fixtures.solid Fixtures.brown)))
            "leaf.png"%string) = Return 2%Z.
Proof.
  rewrite heuristic_predict_unfold. cbn [Fixtures.world_of image_open_rgb].
  pose proof brown_means as H.
  destruct (rgb_means (asarray 128 128 (Fixtures.solid Fixtures.brown)))
    as [[Rm Gm] Bm].
  destruct H as (HR & HG & HB). cbn [result snd]. f_equal.
  rewrite (heuristic_rules_compat _ _ _ _ _ _ HR HG HB). reflexivity.
Qed.

(** C3, as stated, fails: an image of the single colour (140, 100, 60) has
    these channel means and is not given class 3. *)
Lemma C3_counterexample :
  ~ (forall w path im,
        image_open_rgb w path (128, 128)%nat = Return im ->
        (let '(Rm, Gm, Bm) := rgb_means (asarray 128 128 im) in
         Rm == 140 /\ Gm == 100 /\ Bm == 60) ->
        result (heuristic_predict w path) = Return 3%Z).
Proof.
  intros H.
  specialize (H (Fixtures.world_of None (Some (Fixtures.solid Fixtures.brown)))
                "leaf.png"%string (Fixtures.solid Fixtures.brown)
                eq_refl brown_means).
  rewrite brown_run in H. discriminate H.
Qed.

(** C3, amended.  For an image whose channel means are Rm = 140, Gm = 100,
    Bm = 60 (brightness 100) the heuristic classifier returns class 2
    (RedRot): red dominance, 140 - max(100, 60) = 40 >= 20, is tested
    before the Rust rule. *)
Theorem C3_brown_is_redrot w path im :
  image_open_rgb w path (128, 128)%nat = Return im ->
  (let '(Rm, Gm, Bm) := rgb_means (asarray 128 128 im) in
   Rm == 140 /\ Gm == 100 /\ Bm == 60) ->
  (let '(Rm, Gm, Bm) := rgb_means (asarray 128 128 im) in
   brightness Rm Gm Bm == 100)
  /\ heuristic_predict w path = ([EvImageOpen path], Return 2%Z).
Proof.
  intros Hopen Hm. rewrite heuristic_predict_unfold, Hopen.
  destruct (rgb_means (asarray 128 128 im)) as [[Rm Gm] Bm].
  destruct Hm as (HR & HG & HB). split.
  - unfold brightness. rewrite HR, HG, HB. reflexivity.
  - rewrite (heuristic_rules_compat _ _ _ _ _ _ HR HG HB). reflexivity.
Qed.

Lemma C3_brown_is_redrot_witness :
  (let '(Rm, Gm, Bm) :=
     rgb_means (asarray 128 128 (Fixtures.solid Fixtures.brown)) in
   brightness Rm Gm Bm == 100)
  /\ heuristic_predict
       (Fixtures.world_of None (Some (Fixtures.solid Fixtures.brown)))
       "leaf.png"%string
     = ([EvImageOpen "leaf.png"%string], Return 2%Z).
Proof.
  apply (C3_brown_is_redrot
           (Fixtures.world_of None (Some (Fixtures.solid Fixtures.brown)))
           "leaf.png"%string (Fixtures.solid Fixtures.brown)).
  - reflexivity.
  - exact brown_means.
Defined.

(** C4.  When reading or decoding the image fails, [heuristic_predict]
    returns class 0 and raises nothing: the exception of the reader stops
    in the handler. *)
Theorem C4_unreadable_image_is_healthy w path e :
  image_open_rgb w path (128, 128)%nat = Raise e ->
  heuristic_predict w path = ([EvImageOpen path], Return 0%Z).
Proof.
  intros Hopen. rewrite heuristic_predict_unfold, Hopen. reflexivity.
Qed.

Lemma C4_unreadable_image_is_healthy_witness :
  heuristic_predict (Fixtures.world_of None None) "missing.png"%string
  = ([EvImageOpen "missing.png"%string], Return 0%Z).
Proof.
  apply (C4_unreadable_image_is_healthy
           (Fixtures.world_of None None) "missing.png"%string
           (Fixtures.FileNotFoundError "missing.png"%string)).
  reflexivity.
Defined.

Lemma map_flat_map_dist {A B C} (f : B -> C) (g : A -> list B) (l : list A) :
  map f (flat_map g l) = flat_map (fun x => map f (g x)) l.
Proof.
  induction l as [|x l IH]; [reflexivity|].
  cbn [flat_map]. rewrite map_app, IH. reflexivity.
Qed.

Lemma flat_map_pointwise {A B} (f g : A -> list B) (l : list A) :
  (forall x, f x = g x) -> flat_map f l = flat_map g l.
Proof.
  intros Hfg. induction l as [|x l IH]; [reflexivity|].
  cbn [flat_map]. rewrite Hfg, IH. reflexivity.
Qed.

Lemma indices_row (w : nat) : indices [w] = map (fun j => [j]) (seq 0 w).
Proof.
  change (indices [w]) with (flat_map (fun i => map (cons i) [[]]) (seq 0 w)).
  generalize (seq 0 w). intros l.
  induction l as [|j l IH]; [reflexivity|].
  cbn [flat_map app]. rewrite IH. reflexivity.
Qed.

(** [arr[:, :, c].mean()] is the mean of channel [c] over the pixels. *)
Lemma channel_mean_pixels (h w : nat) (im : image) (c : nat) :
  mean (channel (asarray h w im) c) = Stats.pixel_mean h w im c.
Proof.
  unfold mean, Stats.pixel_mean.
  change (shape (channel (asarray h w im) c)) with [h; w].
  f_equal.
  - f_equal. change (indices [h; w])
      with (flat_map (fun i => map (cons i) (indices [w])) (seq 0 h)).
    rewrite map_flat_map_dist. apply flat_map_pointwise. intros i.
    rewrite indices_row, !map_map. reflexivity.
  - unfold size. change (shape (channel (asarray h w im) c)) with [h; w].
    cbn [fold_right]. rewrite Nat.mul_1_r. reflexivity.
Qed.

Lemma rgb_means_pixels (im : image) :
  rgb_means (asarray 128 128 im)
  = (Stats.pixel_mean 128 128 im 0, Stats.pixel_mean 128 128 im 1,
     Stats.pixel_mean 128 128 im 2).
Proof. unfold rgb_means. rewrite !channel_mean_pixels. reflexivity. Qed.

(** The run of the classifier on an image whose pixels have given means. *)
Lemma heuristic_predict_of_means (w : world) (path : string) (im : image)
      (Rm Gm Bm : Q) :
  image_open_rgb w path (128, 128)%nat = Return im ->
  Stats.pixel_mean 128 128 im 0 == Rm ->
  Stats.pixel_mean 128 128 im 1 == Gm ->
  Stats.pixel_mean 128 128 im 2 == Bm ->
  heuristic_predict w path
  = ([EvImageOpen path], Return (heuristic_rules Rm Gm Bm)).
Proof.
  intros Hopen HR HG HB.
  rewrite heuristic_predict_unfold, Hopen, rgb_means_pixels.
  rewrite (heuristic_rules_compat _ _ _ _ _ _ HR HG HB). reflexivity.
Qed.

(** The pixel means of an image of one colour. *)
Lemma solid_pixel_means (p : rgb) (c : nat) :
  Stats.pixel_mean 128 128 (Fixtures.solid p) c == channel_of p c.
Proof.
  rewrite <- channel_mean_pixels. apply mean_const.
  - unfold size. cbn [shape channel asarray firstn fold_right]. lia.
  - intros idx Hin. apply indices_length in Hin. cbn in Hin.
    destruct idx as [|i [|j [|k idx]]]; try discriminate Hin.
    reflexivity.
Qed.

Lemma solid_run (env : option PyStr.str) (path : string) (p : rgb) :
  heuristic_predict (Fixtures.world_of env (Some (Fixtures.solid p))) path
  = ([EvImageOpen path],
     Return (heuristic_rules (channel_of p 0) (channel_of p 1) (channel_of p 2))).
Proof.
  exact (heuristic_predict_of_means
           (Fixtures.world_of env (Some (Fixtures.solid p))) path
           (Fixtures.solid p) (channel_of p 0) (channel_of p 1) (channel_of p 2)
           eq_refl (solid_pixel_means p 0) (solid_pixel_means p 1)
           (solid_pixel_means p 2)).
Qed.

(** C1.  The heuristic classifier is a function of the three per-channel
    means of the image resized to 128x128.  The triple it works on is the
    mean of each channel over the 16384 pixels; an image that can be read
    gets [heuristic_rules] of that triple, so any two images with the same
    means get the same class.  For every triple exactly one rule of the
    ordered table (green dominance -> 0, yellow -> 4, red dominance -> 2,
    brownish at moderate brightness -> 3, catch-all -> 1) fires, that is,
    is the first whose guard holds, and the answer is its class.  An image
    with means (200, 80, 80) gets 2, (50, 200, 50) gets 0, (150, 150, 50)
    gets 4 and (100, 100, 100) gets 1; the images of these single colours
    have these means and get these classes. *)
Theorem C1_heuristic_first_match :
  (forall w path,
      heuristic_predict w path =
      match image_open_rgb w path (128, 128)%nat with
      | Return im =>
          ([EvImageOpen path],
           Return (let '(Rm, Gm, Bm) := rgb_means (asarray 128 128 im) in
                   heuristic_rules Rm Gm Bm))
      | Raise _ => ([EvImageOpen path], Return 0%Z)
      end)
  /\ (forall im,
        rgb_means (asarray 128 128 im)
        = (Stats.pixel_mean 128 128 im 0, Stats.pixel_mean 128 128 im 1,
           Stats.pixel_mean 128 128 im 2))
  /\ (forall w path im Rm Gm Bm,
        image_open_rgb w path (128, 128)%nat = Return im ->
        Stats.pixel_mean 128 128 im 0 == Rm ->
        Stats.pixel_mean 128 128 im 1 == Gm ->
        Stats.pixel_mean 128 128 im 2 == Bm ->
        heuristic_predict w path
        = ([EvImageOpen path], Return (heuristic_rules Rm Gm Bm)))
  /\ (forall Rm Gm Bm : Q,
        exists i, (i < 5)%nat
                  /\ fires i (Rm, Gm, Bm)
                  /\ (forall j, fires j (Rm, Gm, Bm) -> j = i)
                  /\ heuristic_rules Rm Gm Bm = class_of_rule i)
  /\ map class_of_rule [0; 1; 2; 3; 4]%nat = [0; 4; 2; 3; 1]%Z
  /\ (forall w path im,
        image_open_rgb w path (128, 128)%nat = Return im ->
        (Stats.pixel_mean 128 128 im 0 == 200
         /\ Stats.pixel_mean 128 128 im 1 == 80
         /\ Stats.pixel_mean 128 128 im 2 == 80 ->
         heuristic_predict w path = ([EvImageOpen path], Return 2%Z))
        /\ (Stats.pixel_mean 128 128 im 0 == 50
            /\ Stats.pixel_mean 128 128 im 1 == 200
            /\ Stats.pixel_mean 128 128 im 2 == 50 ->
            heuristic_predict w path = ([EvImageOpen path], Return 0%Z))
        /\ (Stats.pixel_mean 128 128 im 0 == 150
            /\ Stats.pixel_mean 128 128 im 1 == 150
            /\ Stats.pixel_mean 128 128 im 2 == 50 ->
            heuristic_predict w path = ([EvImageOpen path], Return 4%Z))
        /\ (Stats.pixel_mean 128 128 im 0 == 100
            /\ Stats.pixel_mean 128 128 im 1 == 100
            /\ Stats.pixel_mean 128 128 im 2 == 100 ->
            heuristic_predict w path = ([EvImageOpen path], Return 1%Z)))
  /\ (Stats.pixel_mean 128 128 (Fixtures.solid Stats.reddish) 0 == 200
      /\ Stats.pixel_mean 128 128 (Fixtures.solid Stats.reddish) 1 == 80
      /\ Stats.pixel_mean 128 128 (Fixtures.solid Stats.reddish) 2 == 80)
  /\ (forall env path,
        heuristic_predict
          (Fixtures.world_of env (Some (Fixtures.solid Stats.reddish))) path
        = ([EvImageOpen path], Return 2%Z))
  /\ (forall env path,
        heuristic_predict
          (Fixtures.world_of env (Some (Fixtures.solid Fixtures.green))) path
        = ([EvImageOpen path], Return 0%Z))
  /\ (forall env path,
        heuristic_predict
          (Fixtures.world_of env (Some (Fixtures.solid Stats.yellowish))) path
        = ([EvImageOpen path], Return 4%Z))
  /\ (forall env path,
        heuristic_predict
          (Fixtures.world_of env (Some (Fixtures.solid Stats.greyish))) path
        = ([EvImageOpen path], Return 1%Z)).
Proof.
  split; [intros w path; apply heuristic_predict_unfold |].
  split; [apply rgb_means_pixels |].
  split; [apply heuristic_predict_of_means |].
  split.
  { intros Rm Gm Bm.
    destruct (heuristic_rules_fires Rm Gm Bm) as (i & Hf & Hc).
    exists i. repeat split; try assumption.
    - eapply fires_bound; eassumption.
    - apply Hf.
    - apply Hf.
    - intros j Hj. eapply fires_unique; eassumption. }
  split; [reflexivity|].
  split.
  { intros w path im Hopen.
    split; [|split; [|split]]; intros (HR & HG & HB);
      rewrite (heuristic_predict_of_means w path im _ _ _ Hopen HR HG HB);
      reflexivity. }
  split.
  { split; [|split].
    - exact (solid_pixel_means Stats.reddish 0).
    - exact (solid_pixel_means Stats.reddish 1).
    - exact (solid_pixel_means Stats.reddish 2). }
  split; [|split; [|split]]; intros env path; rewrite solid_run; reflexivity.
Qed.

End HeuristicFacts.

(** ** The ensemble predictor *)

Module EnsembleFacts.
Import Np Sugarcane PyFacts QPyFacts NpFacts.
Local Open Scope Q_scope.

(** One step of the scan of [argmax_row] keeps the best so far. *)
Lemma argmax_scan (f : nat -> Q) (len m b : nat) :
  (b <= m)%nat ->
  (forall j, (j <= m)%nat -> f j <= f b) ->
  (forall j, (j < b)%nat -> f j < f b) ->
  let k := fold_left (fun best j => if QPy.gtb (f j) (f best) then j else best)
                     (seq (S m) len) b in
  (k <= m + len)%nat
  /\ (forall j, (j <= m + len)%nat -> f j <= f k)
  /\ (forall j, (j < k)%nat -> f j < f k).
Proof.
  revert m b. induction len as [|len IH]; intros m b Hb Hmax Hfirst; cbn.
  - rewrite Nat.add_0_r. auto.
  - destruct (QPy.gtb (f (S m)) (f b)) eqn:Hgt.
    + apply gtb_spec in Hgt.
      specialize (IH (S m) (S m)). cbn zeta in IH.
      replace (m + S len)%nat with (S m + len)%nat by lia.
      apply IH.
      * lia.
      * intros j Hj. destruct (Nat.eq_dec j (S m)) as [-> | Hne].
        -- apply Qle_refl.
        -- apply Qlt_le_weak. eapply Qle_lt_trans; [apply Hmax; lia | exact Hgt].
      * intros j Hj. eapply Qle_lt_trans; [apply Hmax; lia | exact Hgt].
    + apply gtb_false in Hgt.
      specialize (IH (S m) b). cbn zeta in IH.
      replace (m + S len)%nat with (S m + len)%nat by lia.
      apply IH.
      * lia.
      * intros j Hj. destruct (Nat.eq_dec j (S m)) as [-> | Hne].
        -- exact Hgt.
        -- apply Hmax. lia.
      * exact Hfirst.
Qed.

(** [argmax_row] finds the first index of the maximum. *)
Lemma argmax_row_spec (f : nat -> Q) (n : nat) :
  (0 < n)%nat ->
  (argmax_row f n < n)%nat
  /\ (forall j, (j < n)%nat -> f j <= f (argmax_row f n))
  /\ (forall j, (j < argmax_row f n)%nat -> f j < f (argmax_row f n)).
Proof.
  intros Hn. unfold argmax_row.
  pose proof (argmax_scan f (n - 1) 0 0) as H. cbn zeta in H.
  destruct H as (Hk & Hmax & Hfirst).
  - lia.
  - intros j Hj. replace j with 0%nat by lia. apply Qle_refl.
  - intros j Hj. lia.
  - split; [lia|]. split; [|exact Hfirst].
    intros j Hj. apply Hmax. lia.
Qed.

Lemma argmax_fold_ext (f g : nat -> Q) (l : list nat) (b : nat) :
  (forall j, f j = g j) ->
  fold_left (fun best j => if QPy.gtb (f j) (f best) then j else best) l b
  = fold_left (fun best j => if QPy.gtb (g j) (g best) then j else best) l b.
Proof.
  intros Hfg. revert b.
  induction l as [|j l IH]; intros b; [reflexivity|].
  cbn [fold_left]. rewrite !Hfg. apply IH.
Qed.

Lemma argmax_row_ext (f g : nat -> Q) (n : nat) :
  (forall j, f j = g j) -> argmax_row f n = argmax_row g n.
Proof. intros Hfg. unfold argmax_row. apply argmax_fold_ext. exact Hfg. Qed.

(** Running every model on one tensor: one call each, on that tensor. *)
Lemma for_each_predict (x : ndarray) (ms : list model) (outs : list ndarray) :
  Forall2 (fun m p => m x = Return p) ms outs ->
  for_each (fun m : model => call (EvPredict x) (m x)) ms
  = (map (fun _ => EvPredict x) ms, Return outs).
Proof.
  induction 1 as [|m p ms outs Hm _ IH]; [reflexivity|].
  cbn [for_each]. rewrite IH, Hm. unfold bind, call, ret. cbn.
  rewrite app_nil_r. reflexivity.
Qed.

Lemma map_nth_seq {A B} (g : A -> B) (l : list A) (d : A) :
  map (fun i => g (nth i l d)) (seq 0 (length l)) = map g l.
Proof.
  induction l as [|a l IH]; [reflexivity|].
  cbn [length seq map]. cbn [nth]. f_equal.
  rewrite <- seq_shift, map_map. exact IH.
Qed.

(** Every entry of the preprocessed tensor lies in [0, 1]. *)
Lemma channel_of_range (p : rgb) (c : nat) : 0 <= channel_of p c <= 255.
Proof.
  destruct p as [[r g] b]. unfold channel_of.
  set (v := match c with 0%nat => r | 1%nat => g | _ => b end).
  pose proof (Byte.to_N_bounded v) as Hb.
  split.
  - change 0 with (inject_Z 0). rewrite <- Zle_Qle. lia.
  - change 255 with (inject_Z 255). rewrite <- Zle_Qle. lia.
Qed.

Lemma preprocessed_range (img : image) (idx : list nat) :
  0 <= item (divide (expand_dims0 (asarray 224 224 img)) 255) idx <= 1.
Proof.
  cbn [item divide expand_dims0 asarray].
  assert (H : forall v, 0 <= v <= 255 -> 0 <= v / 255 <= 1).
  { intros v [H0 H1]. split.
    - apply Qle_shift_div_l; [reflexivity|]. rewrite Qmult_0_l. exact H0.
    - apply Qle_shift_div_r; [reflexivity|]. rewrite Qmult_1_l. exact H1. }
  apply H.
  destruct (tl idx) as [|i [|j [|c [|? ?]]]];
    try (split; [apply Qle_refl | discriminate]).
  apply channel_of_range.
Qed.

(** What the ensemble branch computes from the models' answers. *)
Lemma ensemble_run (w : world) (ms : list model) (demo : bool) (path : string)
      (x : ndarray) (outs : list ndarray) (C : nat) :
  ms <> [] ->
  preprocess_image w path (224, 224)%nat
  = ([EvLoadImg path (224, 224)%nat], Return x) ->
  Forall2 (fun m p => m x = Return p) ms outs ->
  Forall (fun p => shape p = [1; C]%nat) outs ->
  (0 < C)%nat ->
  predict_sugarcane w ms demo path
  = [ (EvLoadImg path (224, 224)%nat :: map (fun _ => EvPredict x) ms,
       Return (Z.of_nat (argmax_row (spec_average outs) C))) ].
Proof.
  intros Hne Hpre Hruns Hshapes HC.
  unfold predict_sugarcane.
  destruct ms as [|m0 ms]; [congruence|]. cbn [MODEL_PRESENT length negb orb].
  change (0 <? S (length ms))%nat with true. cbn [negb orb].
  unfold Rand.certainly. f_equal.
  rewrite Hpre, bind_return.
  rewrite (for_each_predict x (m0 :: ms) outs Hruns), bind_return.
  destruct outs as [|p0 outs]; [inversion Hruns|].
  assert (Harr : array (p0 :: outs)
                 = Return {| shape := length (p0 :: outs) :: shape p0;
                             item idx := match idx with
                                         | i :: idx' => item (nth i (p0 :: outs) p0) idx'
                                         | [] => 0
                                         end |}).
  { unfold array.
    replace (forallb (fun a => shape_eqb (shape a) (shape p0)) (p0 :: outs))
      with true; [reflexivity|].
    symmetry. apply forallb_forall. intros a Ha.
    unfold shape_eqb. apply bool_decide_eq_true_2.
    rewrite Forall_forall in Hshapes.
    rewrite (Hshapes a) by (apply list_elem_of_In; exact Ha).
    rewrite (Hshapes p0) by (apply list_elem_of_In; left; reflexivity).
    reflexivity. }
  assert (Hs0 : shape p0 = [1; C]%nat).
  { rewrite Forall_forall in Hshapes. apply Hshapes. left. }
  rewrite Harr, Hs0, bind_lift_return.
  unfold mean_axis0. cbn [shape]. rewrite bind_lift_return.
  unfold argmax_axis1. cbn [shape].
  destruct (C =? 0)%nat eqn:HC0; [apply Nat.eqb_eq in HC0; lia|].
  rewrite bind_lift_return. cbn [seq map first]. rewrite bind_lift_return.
  unfold ret. cbn [fst snd]. rewrite !app_nil_r. cbn [app].
  f_equal. f_equal. f_equal.
  apply argmax_row_ext. intros j. cbn [item]. unfold spec_average.
  rewrite (map_nth_seq (fun p => item p [0%nat; j]) (p0 :: outs) p0).
  reflexivity.
Qed.

Lemma preprocess_image_inv (w : world) (path : string) (x : ndarray) :
  result (preprocess_image w path (224, 224)%nat) = Return x ->
  exists img,
    load_img w path (224, 224)%nat = Return img
    /\ x = divide (expand_dims0 (asarray 224 224 img)) 255
    /\ preprocess_image w path (224, 224)%nat
       = ([EvLoadImg path (224, 224)%nat], Return x).
Proof.
  unfold preprocess_image, call.
  destruct (load_img w path (224, 224)%nat) as [img | e]; cbn; intros H.
  - exists img. injection H as <-. repeat split.
  - discriminate H.
Qed.

End EnsembleFacts.

(** ** Strings *)

Module PyStrFacts.
Import PyStr.

Lemma eqb_eq (a b : str) : eqb a b = true <-> a = b.
Proof.
  revert b. induction a as [|x a IH]; intros [|y b]; cbn; try (split; congruence).
  rewrite andb_true_iff, N.eqb_eq, IH. split.
  - intros [-> ->]. reflexivity.
  - intros H. injection H as -> ->. split; reflexivity.
Qed.

(** [lstrip] removes a run of white space and stops at the first other
    character. *)
Lemma lstrip_spec (s : str) :
  exists l, Forall (fun c => isspace c = true) l
            /\ s = l ++ lstrip s
            /\ (forall c t, lstrip s = c :: t -> isspace c = false).
Proof.
  induction s as [|c s (l & Hl & Hs & Hhd)].
  - exists []. repeat split; [constructor | discriminate].
  - cbn [lstrip]. destruct (isspace c) eqn:Hc.
    + exists (c :: l). repeat split.
      * constructor; assumption.
      * cbn. f_equal. exact Hs.
      * exact Hhd.
    + exists []. repeat split; [constructor|].
      intros c' t H. injection H as <- <-. exact Hc.
Qed.

Lemma lstrip_spaces_app (l : str) (c : N) (t : str) :
  Forall (fun c => isspace c = true) l -> isspace c = false ->
  lstrip (l ++ c :: t) = c :: t.
Proof.
  intros Hl Hc. induction Hl as [|x l Hx _ IH]; cbn.
  - rewrite Hc. reflexivity.
  - rewrite Hx. exact IH.
Qed.

(** [strip] leaves the one character [c], not white space, exactly on the
    strings that are [c] between two runs of white space. *)
Lemma strip_singleton (s : str) (c : N) :
  isspace c = false ->
  strip s = [c] <->
  exists l r, Forall (fun c => isspace c = true) l
              /\ Forall (fun c => isspace c = true) r
              /\ s = l ++ [c] ++ r.
Proof.
  intros Hc. unfold strip, rstrip. split.
  - intros H.
    destruct (lstrip_spec s) as (l & Hl & Hs & _).
    destruct (lstrip_spec (rev (lstrip s))) as (r & Hr & Hrs & _).
    assert (Hrev : lstrip (rev (lstrip s)) = [c]).
    { rewrite <- (rev_involutive (lstrip (rev (lstrip s)))), H. reflexivity. }
    rewrite Hrev in Hrs.
    exists l, (rev r). repeat split.
    + exact Hl.
    + apply Forall_rev. exact Hr.
    + rewrite Hs at 1. f_equal.
      rewrite <- (rev_involutive (lstrip s)), Hrs, rev_app_distr.
      reflexivity.
  - intros (l & r & Hl & Hr & ->).
    change ([c] ++ r) with (c :: r).
    rewrite (lstrip_spaces_app l c r Hl Hc).
    change (c :: r) with ([c] ++ r). rewrite rev_app_distr. cbn [rev app].
    rewrite (lstrip_spaces_app (rev r) c [] (Forall_rev Hr) Hc).
    reflexivity.
Qed.

End PyStrFacts.

(** ** Demo mode and the fallbacks *)

Module DemoFacts.
Import Np Sugarcane PyFacts PyStrFacts.

Lemma no_models_branch (w : world) (demo : bool) (path : string) :
  predict_sugarcane w [] demo path
  = if demo then map (fun r => ret r) (Rand.randint 0 5)
    else [heuristic_predict w path].
Proof. reflexivity. Qed.

(** C9.  With no model loaded and demo mode on, [predict_sugarcane] draws
    its answer uniformly from 0..4: each of the five classes has probability
    1/5, every outcome is a returned integer in [0, 4], and no outcome is an
    exception. *)
Theorem C9_demo_mode_uniform (w : world) (path : string) :
  predict_sugarcane w [] true path
  = map (fun r => ret r) (Rand.randint 0 5)
  /\ map result (predict_sugarcane w [] true path)
     = [Return 0; Return 1; Return 2; Return 3; Return 4]
  /\ (forall run, In run (predict_sugarcane w [] true path) ->
        exists v, run = ([], Return v) /\ 0 <= v <= 4)
  /\ (forall v, 0 <= v <= 4 ->
        Rand.pr (answers v) (predict_sugarcane w [] true path) = (1 # 5)%Q)
  /\ (forall v, ~ 0 <= v <= 4 ->
        Rand.pr (answers v) (predict_sugarcane w [] true path) = (0 # 5)%Q).
Proof.
  rewrite no_models_branch.
  change (map (fun r => ret r) (Rand.randint 0 5))
    with [@ret event Z 0; ret 1; ret 2; ret 3; ret 4].
  split; [reflexivity|]. split; [reflexivity|]. split; [|split].
  - intros run Hin. cbn in Hin.
    destruct Hin as [<- | [<- | [<- | [<- | [<- | []]]]]];
      eexists; (split; [reflexivity | lia]).
  - intros v Hv.
    assert (Hcases : v = 0 \/ v = 1 \/ v = 2 \/ v = 3 \/ v = 4) by lia.
    destruct Hcases as [-> | [-> | [-> | [-> | ->]]]]; reflexivity.
  - intros v Hv. unfold Rand.pr, answers. cbn [List.filter result snd ret].
    destruct (Z.eqb_spec 0 v); [lia|].
    destruct (Z.eqb_spec 1 v); [lia|].
    destruct (Z.eqb_spec 2 v); [lia|].
    destruct (Z.eqb_spec 3 v); [lia|].
    destruct (Z.eqb_spec 4 v); [lia|].
    reflexivity.
Qed.

(** C10.  Demo mode is on exactly when the value of SUGARCANE_DEMO_MODE,
    with the white space at both ends removed, is the one character "1":
    " 1 " turns it on; "true", "yes", "0" and an unset variable leave it
    off.  With no model loaded, the heuristic fallback runs when it is off
    and the random draw when it is on. *)
Theorem C10_demo_mode_toggle :
  (forall w,
      DEMO_MODE w = true <->
      exists l r,
        Forall (fun c => PyStr.isspace c = true) l
        /\ Forall (fun c => PyStr.isspace c = true) r
        /\ getenv w "SUGARCANE_DEMO_MODE" = Some (l ++ PyStr.lit "1" ++ r))
  /\ (forall w,
        DEMO_MODE w
        = PyStr.eqb (PyStr.strip (default [] (getenv w "SUGARCANE_DEMO_MODE")))
                    (PyStr.lit "1"))
  /\ DEMO_MODE (Fixtures.world_of (Some (PyStr.lit " 1 ")) None) = true
  /\ DEMO_MODE (Fixtures.world_of (Some (PyStr.lit "1")) None) = true
  /\ DEMO_MODE (Fixtures.world_of (Some (PyStr.lit "true")) None) = false
  /\ DEMO_MODE (Fixtures.world_of (Some (PyStr.lit "yes")) None) = false
  /\ DEMO_MODE (Fixtures.world_of (Some (PyStr.lit "0")) None) = false
  /\ DEMO_MODE (Fixtures.world_of None None) = false
  /\ (forall w path,
        models w = [] -> DEMO_MODE w = false ->
        service w path = [heuristic_predict w path])
  /\ (forall w path,
        models w = [] -> DEMO_MODE w = true ->
        service w path = map (fun r => ret r) (Rand.randint 0 5)).
Proof.
  split.
  { intros w. unfold DEMO_MODE. rewrite eqb_eq.
    change (PyStr.lit "1") with [49%N].
    rewrite (strip_singleton _ 49%N eq_refl).
    destruct (getenv w "SUGARCANE_DEMO_MODE") as [v|];
      cbn [default from_option id].
    - split.
      + intros (l & r & Hl & Hr & ->). exists l, r. auto.
      + intros (l & r & Hl & Hr & Hv). injection Hv as ->. exists l, r. auto.
    - split.
      + intros (l & r & _ & _ & Hv). destruct l; discriminate Hv.
      + intros (l & r & _ & _ & Hv). discriminate Hv. }
  split; [reflexivity|].
  repeat (split; [reflexivity|]).
  split.
  - intros w path Hm Hd. unfold service. rewrite Hm, Hd. reflexivity.
  - intros w path Hm Hd. unfold service. rewrite Hm, Hd. reflexivity.
Qed.

End DemoFacts.

(** ** The crop recommendation handler *)

Module CropFacts.
Import Crop PyFacts.
Local Open Scope string_scope.

Lemma get_dict (d : gmap string pyval) (key : string) :
  get (PDict d) key = Return (field d key).
Proof. reflexivity. Qed.

Lemma field_missing (d : gmap string pyval) (key : string) :
  d !! key = None -> field d key = PNone.
Proof. intros H. unfold field. rewrite H. reflexivity. Qed.

(** The handler on a request that is a JSON object, case by case. *)
Lemma try_dict (mdl : model) (d : gmap string pyval) :
  crop_recommendation_try (Some mdl) (Return (PDict d)) =
  match table_get previous_crop_mapping (field d "Previous Crop") (-1) with
  | Raise e => ([EvRequestJson], Raise e)
  | Return pc =>
      match table_get soil_type_mapping (field d "Soil Type") (-1) with
      | Raise e => ([EvRequestJson], Raise e)
      | Return st =>
          ([EvRequestJson; EvPredict (feature_frame pc st d)],
           match mdl (feature_frame pc st d) with
           | Raise e => Raise e
           | Return prediction =>
               match prediction with
               | [] => Raise (Np.IndexError
                                "index 0 is out of bounds for axis 0 with size 0")
               | p0 :: _ =>
                   Return (jsonify
                             [("Recommended Crop",
                               default "No prediction available" (crop_mapping !! p0))])
               end
           end)
      end
  end.
Proof.
  unfold crop_recommendation_try, call. rewrite bind_return.
  rewrite !get_dict, !bind_lift_return.
  destruct (table_get previous_crop_mapping _ _) as [pc | e];
    [rewrite bind_lift_return | reflexivity].
  destruct (table_get soil_type_mapping _ _) as [st | e];
    [rewrite bind_lift_return | reflexivity].
  fold (feature_frame pc st d).
  destruct (mdl (feature_frame pc st d)) as [[|p0 rest] | e]; cbn; try reflexivity.
  destruct (crop_mapping !! p0); reflexivity.
Qed.

(** A request body that is not an object never reaches the model. *)
Lemma try_not_dict (mdl : model) (data : pyval) :
  (forall d, data <> PDict d) ->
  crop_recommendation_try (Some mdl) (Return data)
  = ([EvRequestJson],
     Raise (AttributeError ("'" ++ type_name data ++ "' object has no attribute 'get'"))).
Proof.
  intros Hd. destruct data; try reflexivity. exfalso. eapply Hd. reflexivity.
Qed.

Lemma table_get_hashable (table : gmap string Z) (key : pyval) (dflt : Z) :
  hashable key = true ->
  exists code, table_get table key dflt = Return code.
Proof.
  intros H. unfold table_get. rewrite H. destruct key; eauto.
Qed.

Lemma table_get_unknown (table : gmap string Z) (d : gmap string pyval)
      (key : string) :
  unknown_category table (d !! key) ->
  table_get table (field d key) (-1) = Return (-1).
Proof.
  unfold field. intros [-> | (s & -> & Hs)]; cbn.
  - reflexivity.
  - unfold table_get. cbn. rewrite Hs. reflexivity.
Qed.

(** Go through the entries of a table literal that a lookup may have hit. *)
Ltac table_entries H :=
  repeat (apply lookup_insert_Some in H; destruct H as [[<- <-] | [_ H]]; [lia|]);
  apply lookup_singleton_Some in H; destruct H as [<- <-]; lia.

(** The codes of both tables are positive: -1 is no code of a category. *)
Lemma previous_crop_codes (s : string) (v : Z) :
  previous_crop_mapping !! s = Some v -> 1 <= v <= 7.
Proof. unfold previous_crop_mapping. intros H. table_entries H. Qed.

Lemma soil_type_codes (s : string) (v : Z) :
  soil_type_mapping !! s = Some v -> 1 <= v <= 4.
Proof. unfold soil_type_mapping. intros H. table_entries H. Qed.

(** The reverse label table has the eight keys 1..8. *)
Lemma crop_mapping_keys (idx : Z) :
  is_Some (crop_mapping !! idx) <-> 1 <= idx <= 8.
Proof.
  split.
  - intros [name H]. unfold crop_mapping in H. table_entries H.
  - intros H.
    assert (Hc : idx = 1 \/ idx = 2 \/ idx = 3 \/ idx = 4
                 \/ idx = 5 \/ idx = 6 \/ idx = 7 \/ idx = 8) by lia.
    destruct Hc as [-> | [-> | [-> | [-> | [-> | [-> | [-> | ->]]]]]]];
      vm_compute; eauto.
Qed.

Lemma handler_trace (cm : option model) (req : outcome pyval) :
  trace (crop_recommendation cm req) = trace (crop_recommendation_try cm req).
Proof.
  unfold crop_recommendation, try_except.
  destruct (crop_recommendation_try cm req) as [t [resp | e]]; cbn.
  - reflexivity.
  - apply app_nil_r.
Qed.

Lemma handler_result (cm : option model) (req : outcome pyval) :
  result (crop_recommendation cm req)
  = match result (crop_recommendation_try cm req) with
    | Return resp => Return resp
    | Raise e => Return (error_response e)
    end.
Proof.
  unfold crop_recommendation, try_except.
  destruct (crop_recommendation_try cm req) as [t [resp | e]]; reflexivity.
Qed.

(** When the trace shows a call of the model, the request was an object
    with hashable categories and the frame is the one assembled from it. *)
Lemma reaches_model (mdl : model) (req : outcome pyval) (df : dataframe) :
  trace (crop_recommendation (Some mdl) req) = [EvRequestJson; EvPredict df] ->
  exists d pc st,
    req = Return (PDict d)
    /\ table_get previous_crop_mapping (field d "Previous Crop") (-1) = Return pc
    /\ table_get soil_type_mapping (field d "Soil Type") (-1) = Return st
    /\ df = feature_frame pc st d.
Proof.
  rewrite handler_trace. destruct req as [data | e]; [|discriminate].
  destruct data as [| | | | |l|d];
    try (rewrite try_not_dict by discriminate; discriminate).
  rewrite try_dict.
  destruct (table_get previous_crop_mapping _ _) as [pc | e] eqn:Hpc;
    [|discriminate].
  destruct (table_get soil_type_mapping _ _) as [st | e] eqn:Hst;
    [|discriminate].
  cbn. intros H. injection H as <-. exists d, pc, st. auto.
Qed.

(** C5.  A category string that is not in the Previous Crop or the Soil
    Type table, and an absent field, are given the code -1, and the lookup
    raises nothing: the handler goes on to call the model with -1 in the
    row.  No category of a table has the code -1. *)
Theorem C5_unknown_category_is_minus_one :
  (forall s, previous_crop_mapping !! s = None ->
             table_get previous_crop_mapping (PStr s) (-1) = Return (-1))
  /\ (forall s, soil_type_mapping !! s = None ->
                table_get soil_type_mapping (PStr s) (-1) = Return (-1))
  /\ (forall d key, d !! key = None -> get (PDict d) key = Return PNone)
  /\ (forall table, table_get table PNone (-1) = Return (-1))
  /\ (forall mdl d,
         unknown_category previous_crop_mapping (d !! "Previous Crop") ->
         unknown_category soil_type_mapping (d !! "Soil Type") ->
         trace (crop_recommendation (Some mdl) (Return (PDict d)))
         = [EvRequestJson; EvPredict (feature_frame (-1) (-1) d)])
  /\ (forall s, table_get previous_crop_mapping (PStr s) (-1) = Return (-1)
                <-> previous_crop_mapping !! s = None)
  /\ (forall s, table_get soil_type_mapping (PStr s) (-1) = Return (-1)
                <-> soil_type_mapping !! s = None)
  /\ table_get previous_crop_mapping (PStr "Rice") (-1) = Return (-1)
  /\ table_get previous_crop_mapping (PStr "wheat") (-1) = Return (-1)
  /\ table_get soil_type_mapping (PStr "Peaty") (-1) = Return (-1)
  /\ trace (crop_recommendation (Some (Fixtures.always 1))
                                (Return (PDict Fixtures.rice_on_peat)))
     = [EvRequestJson;
        EvPredict [[ ("Previous Crop", PInt (-1)); ("Soil Type", PInt (-1));
                     ("Moisture Level", PInt 40); ("Nitrogen (N)", PNone);
                     ("Phosphorus (P)", PNone); ("Potassium (K)", PNone) ]]].
Proof.
  split; [intros s H; unfold table_get; cbn; rewrite H; reflexivity|].
  split; [intros s H; unfold table_get; cbn; rewrite H; reflexivity|].
  split; [intros d key H; rewrite get_dict, field_missing by exact H; reflexivity|].
  split; [reflexivity|].
  split.
  { intros mdl d Hpc Hst. rewrite handler_trace, try_dict.
    rewrite (table_get_unknown _ _ _ Hpc), (table_get_unknown _ _ _ Hst).
    reflexivity. }
  split.
  { intros s. unfold table_get. cbn.
    destruct (previous_crop_mapping !! s) as [v|] eqn:Hs; cbn.
    - apply previous_crop_codes in Hs. split; [|discriminate].
      intros H. injection H as ->. lia.
    - split; reflexivity. }
  split.
  { intros s. unfold table_get. cbn.
    destruct (soil_type_mapping !! s) as [v|] eqn:Hs; cbn.
    - apply soil_type_codes in Hs. split; [|discriminate].
      intros H. injection H as ->. lia.
    - split; reflexivity. }
  repeat split; vm_compute; reflexivity.
Qed.

(** C6.  When the model answers a class index that is not a key of the
    eight-entry label table (the keys 1..8), the response is
    {"Recommended Crop": "No prediction available"} with status 200; for a
    key of the table it is the crop name of that key, with status 200. *)
Theorem C6_unmapped_index_is_soft
        (mdl : model) (req : outcome pyval) (df : dataframe) (idx : Z) (rest : list Z) :
  trace (crop_recommendation (Some mdl) req) = [EvRequestJson; EvPredict df] ->
  mdl df = Return (idx :: rest) ->
  (crop_mapping !! idx = None ->
   result (crop_recommendation (Some mdl) req)
   = Return {| body := [("Recommended Crop", "No prediction available")];
               status := 200 |})
  /\ (forall name, crop_mapping !! idx = Some name ->
        result (crop_recommendation (Some mdl) req)
        = Return {| body := [("Recommended Crop", name)]; status := 200 |})
  /\ (crop_mapping !! idx = None <-> ~ 1 <= idx <= 8).
Proof.
  intros Htrace Hmdl.
  destruct (reaches_model mdl req df Htrace) as (d & pc & st & -> & Hpc & Hst & ->).
  assert (Hres : result (crop_recommendation (Some mdl) (Return (PDict d)))
                 = Return (jsonify [("Recommended Crop",
                                     default "No prediction available"
                                             (crop_mapping !! idx))])).
  { rewrite handler_result, try_dict, Hpc, Hst. cbn [result snd].
    rewrite Hmdl. reflexivity. }
  split; [|split].
  - intros Hnone. rewrite Hres, Hnone. reflexivity.
  - intros name Hsome. rewrite Hres, Hsome. reflexivity.
  - rewrite <- crop_mapping_keys, <- not_eq_None_Some.
    destruct (crop_mapping !! idx); split; intros H;
      [ discriminate H
      | exfalso; apply H; discriminate
      | intros H'; apply H'; reflexivity
      | reflexivity ].
Qed.

Lemma C6_unmapped_index_is_soft_witness :
  result (crop_recommendation (Some (Fixtures.always 9))
                              (Return (PDict Fixtures.wheat_on_loam)))
  = Return {| body := [("Recommended Crop", "No prediction available")];
              status := 200 |}.
Proof.
  refine (proj1 (C6_unmapped_index_is_soft
                   (Fixtures.always 9) (Return (PDict Fixtures.wheat_on_loam))
                   (feature_frame 3 1 Fixtures.wheat_on_loam) 9 [] _ _) _).
  - vm_compute. reflexivity.
  - reflexivity.
  - vm_compute. reflexivity.
Defined.

(** C7.  Without a loaded classifier every request is answered by an
    {"error": ...} body with status 500, before the request is read and
    without a call of a model.  With a classifier, an exception raised
    anywhere in the handling (reading the body, a body that is no object, an
    unhashable category, the model itself, an empty prediction) stops in the
    handler and becomes an {"error": str(e)} body with status 200; the
    handler itself never raises, and 500 is the status of the missing-model
    answer only. *)
Theorem C7_error_responses :
  (forall e req,
      crop_recommendation (load_crop_model (Raise e)) req
      = ([], Return {| body := [("error", "Model not loaded. Ensure crop_rotation_recommendation_model.pkl exists.")];
                       status := 500 |}))
  /\ (forall cm req, exists resp, result (crop_recommendation cm req) = Return resp)
  /\ (forall cm req t e,
         crop_recommendation_try cm req = (t, Raise e) ->
         crop_recommendation cm req
         = (t, Return {| body := [("error", str_exn e)]; status := 200 |}))
  /\ (forall cm req resp,
         result (crop_recommendation cm req) = Return resp ->
         (status resp = 500 /\ cm = None) \/ (status resp = 200 /\ cm <> None))
  /\ (forall mdl e,
         crop_recommendation (Some mdl) (Raise e)
         = ([EvRequestJson], Return {| body := [("error", str_exn e)]; status := 200 |}))
  /\ (forall mdl data,
         (forall d, data <> PDict d) ->
         crop_recommendation (Some mdl) (Return data)
         = ([EvRequestJson],
            Return {| body := [("error", "'" ++ type_name data
                                         ++ "' object has no attribute 'get'")];
                      status := 200 |}))
  /\ (forall mdl d,
         hashable (field d "Previous Crop") = false ->
         crop_recommendation (Some mdl) (Return (PDict d))
         = ([EvRequestJson],
            Return {| body := [("error", "unhashable type: '"
                                         ++ type_name (field d "Previous Crop") ++ "'")];
                      status := 200 |}))
  /\ (forall mdl d,
         hashable (field d "Previous Crop") = true ->
         hashable (field d "Soil Type") = false ->
         crop_recommendation (Some mdl) (Return (PDict d))
         = ([EvRequestJson],
            Return {| body := [("error", "unhashable type: '"
                                         ++ type_name (field d "Soil Type") ++ "'")];
                      status := 200 |}))
  /\ (forall mdl req df e,
         trace (crop_recommendation (Some mdl) req) = [EvRequestJson; EvPredict df] ->
         mdl df = Raise e ->
         result (crop_recommendation (Some mdl) req)
         = Return {| body := [("error", str_exn e)]; status := 200 |}).
Proof.
  split; [reflexivity|].
  split.
  { intros cm req. rewrite handler_result.
    destruct (result (crop_recommendation_try cm req)); eauto. }
  split.
  { intros cm req t e H. unfold crop_recommendation. rewrite H. cbn.
    rewrite app_nil_r. reflexivity. }
  split.
  { intros cm req resp. rewrite handler_result.
    destruct cm as [mdl|]; [|cbn; intros H; injection H as <-; left; auto].
    intros H. right. split; [|discriminate].
    destruct (result (crop_recommendation_try (Some mdl) req)) as [r | e] eqn:Hr;
      [|injection H as <-; reflexivity].
    injection H as <-. revert Hr.
    destruct req as [data | e]; [|discriminate].
    destruct data as [| | | | |l|d];
      try (rewrite try_not_dict by discriminate; discriminate).
    rewrite try_dict.
    destruct (table_get previous_crop_mapping _ _); [|discriminate].
    destruct (table_get soil_type_mapping _ _); [|discriminate].
    cbn. destruct (mdl _) as [[|p0 rest] | e]; try discriminate.
    intros H. injection H as <-. reflexivity. }
  split; [reflexivity|].
  split.
  { intros mdl data Hd. unfold crop_recommendation.
    rewrite (try_not_dict mdl data Hd). reflexivity. }
  split.
  { intros mdl d Hun. unfold crop_recommendation. rewrite try_dict.
    unfold table_get at 1. rewrite Hun. reflexivity. }
  split.
  { intros mdl d Hpc Hun. unfold crop_recommendation. rewrite try_dict.
    destruct (table_get_hashable previous_crop_mapping _ (-1) Hpc) as (pc & ->).
    unfold table_get. rewrite Hun. reflexivity. }
  intros mdl req df e Htrace Hmdl.
  destruct (reaches_model mdl req df Htrace) as (d & pc & st & -> & Hpc & Hst & ->).
  rewrite handler_result, try_dict, Hpc, Hst. cbn [result snd].
  rewrite Hmdl. reflexivity.
Qed.

(** The run of the handler on an object with hashable categories. *)
Lemma reaches_model_hashable (mdl : model) (d : gmap string pyval) :
  hashable (field d "Previous Crop") = true ->
  hashable (field d "Soil Type") = true ->
  exists pc st,
    table_get previous_crop_mapping (field d "Previous Crop") (-1) = Return pc
    /\ table_get soil_type_mapping (field d "Soil Type") (-1) = Return st
    /\ crop_recommendation (Some mdl) (Return (PDict d))
       = ([EvRequestJson; EvPredict (feature_frame pc st d)],
          match mdl (feature_frame pc st d) with
          | Return (idx :: _) =>
              Return (jsonify [("Recommended Crop",
                                default "No prediction available" (crop_mapping !! idx))])
          | Return [] =>
              Return (error_response
                        (Np.IndexError "index 0 is out of bounds for axis 0 with size 0"))
          | Raise e => Return (error_response e)
          end).
Proof.
  intros Hpc Hst.
  destruct (table_get_hashable previous_crop_mapping _ (-1) Hpc) as (pc & Epc).
  destruct (table_get_hashable soil_type_mapping _ (-1) Hst) as (st & Est).
  exists pc, st. split; [exact Epc|]. split; [exact Est|].
  unfold crop_recommendation. rewrite try_dict, Epc, Est.
  destruct (mdl (feature_frame pc st d)) as [[|idx rest] | e]; reflexivity.
Qed.

(** C8, as stated, fails: in a request without "Nitrogen (N)" the value the
    row holds in that column is [None], which is neither -1 nor a label. *)
Lemma C8_counterexample :
  ~ (forall (mdl : model) (d : gmap string pyval) (key : string) (df : dataframe),
        In key RowWords.numeric_keys ->
        d !! key = None ->
        trace (crop_recommendation (Some mdl) (Return (PDict d)))
        = [EvRequestJson; EvPredict df] ->
        exists row v,
          df = [row] /\ RowWords.column key row = Some v
          /\ RowWords.spec_sentinel v).
Proof.
  intros H.
  destruct (H (Fixtures.always 1) Fixtures.rice_on_peat "Nitrogen (N)"
              (feature_frame (-1) (-1) Fixtures.rice_on_peat))
    as (row & v & Hrow & Hcol & Hsent).
  - cbn. tauto.
  - reflexivity.
  - reflexivity.
  - injection Hrow as <-. cbn in Hcol. injection Hcol as <-.
    destruct Hsent as [Hs | (label & Hs)]; discriminate Hs.
Qed.

(** C8, amended.  A request that is an object with hashable categories is
    never rejected by the handler for numeric fields it lacks, whichever of
    the four are missing: the row keeps the six columns in order, a missing
    numeric field is in its column as [None] (not as the sentinel -1 and
    not as a label), a present one is passed on unchanged, the classifier
    is called on that row, and the response is decided by the classifier's
    answer alone: the recommendation for the class it returns, an "error"
    body with status 200 when it raises or returns nothing. *)
Theorem C8_missing_numbers_pass_as_none
        (mdl : model) (d : gmap string pyval) :
  hashable (field d "Previous Crop") = true ->
  hashable (field d "Soil Type") = true ->
  exists row,
    trace (crop_recommendation (Some mdl) (Return (PDict d)))
    = [EvRequestJson; EvPredict [row]]
    /\ map fst row = Cases.request_keys
    /\ (forall key, In key RowWords.numeric_keys ->
          (d !! key = None -> RowWords.column key row = Some PNone)
          /\ (forall v, d !! key = Some v -> RowWords.column key row = Some v))
    /\ (exists pc st,
           table_get previous_crop_mapping (field d "Previous Crop") (-1) = Return pc
           /\ table_get soil_type_mapping (field d "Soil Type") (-1) = Return st
           /\ RowWords.column "Previous Crop" row = Some (PInt pc)
           /\ RowWords.column "Soil Type" row = Some (PInt st))
    /\ ~ RowWords.spec_sentinel PNone
    /\ result (crop_recommendation (Some mdl) (Return (PDict d)))
       = match mdl [row] with
         | Return (idx :: _) =>
             Return {| body := [("Recommended Crop",
                                 default "No prediction available" (crop_mapping !! idx))];
                       status := 200 |}
         | Return [] =>
             Return {| body := [("error", "index 0 is out of bounds for axis 0 with size 0")];
                       status := 200 |}
         | Raise e => Return {| body := [("error", str_exn e)]; status := 200 |}
         end.
Proof.
  intros Hpc Hst.
  destruct (reaches_model_hashable mdl d Hpc Hst) as (pc & st & Epc & Est & Hrun).
  exists [ ("Previous Crop", PInt pc); ("Soil Type", PInt st);
           ("Moisture Level", field d "Moisture Level");
           ("Nitrogen (N)", field d "Nitrogen (N)");
           ("Phosphorus (P)", field d "Phosphorus (P)");
           ("Potassium (K)", field d "Potassium (K)") ].
  fold (feature_frame pc st d). rewrite Hrun.
  split; [reflexivity|]. split; [reflexivity|]. split.
  { intros key Hkey. cbn in Hkey.
    destruct Hkey as [<- | [<- | [<- | [<- | []]]]];
      (split; [intros Hnone | intros v Hsome]); cbn; unfold field;
      first [rewrite Hnone | rewrite Hsome]; reflexivity. }
  split; [exists pc, st; repeat split; assumption|].
  split; [intros [Hs | (label & Hs)]; discriminate Hs|].
  cbn [result snd].
  destruct (mdl (feature_frame pc st d)) as [[|idx rest] | e]; reflexivity.
Qed.

Lemma C8_missing_numbers_pass_as_none_witness :
  exists row,
    trace (crop_recommendation (Some (Fixtures.always 2))
                               (Return (PDict Fixtures.rice_on_peat)))
    = [EvRequestJson; EvPredict [row]]
    /\ RowWords.column "Moisture Level" row = Some (PInt 40)
    /\ RowWords.column "Nitrogen (N)" row = Some PNone
    /\ result (crop_recommendation (Some (Fixtures.always 2))
                                   (Return (PDict Fixtures.rice_on_peat)))
       = Return {| body := [("Recommended Crop", "Rice")]; status := 200 |}.
Proof.
  destruct (C8_missing_numbers_pass_as_none
              (Fixtures.always 2) Fixtures.rice_on_peat)
    as (row & Htrace & Hnames & Hcols & _ & _ & Hres);
    try (vm_compute; reflexivity).
  exists row. split; [exact Htrace|].
  split.
  { refine (proj2 (Hcols "Moisture Level" _) (PInt 40) _);
      [cbn; tauto | vm_compute; reflexivity]. }
  split.
  { refine (proj1 (Hcols "Nitrogen (N)" _) _);
      [cbn; tauto | vm_compute; reflexivity]. }
  rewrite Hres. cbn in Htrace. injection Htrace as <-. reflexivity.
Defined.

(** A classifier may still refuse the row: the refusal is answered as an
    error body with status 200, not by the handler rejecting the request. *)
Lemma missing_numbers_strict_model :
  crop_recommendation (Some Fixtures.strict) (Return (PDict Fixtures.wheat_on_loam))
  = ([EvRequestJson;
      EvPredict [[ ("Previous Crop", PInt 3); ("Soil Type", PInt 1);
                   ("Moisture Level", PNone); ("Nitrogen (N)", PNone);
                   ("Phosphorus (P)", PNone); ("Potassium (K)", PNone) ]]],
     Return {| body := [("error", "Input contains NaN")]; status := 200 |}).
Proof. vm_compute. reflexivity. Qed.

End CropFacts.

(** ** More on the heuristic classifier *)

Module HeuristicMore.
Import Np Sugarcane PyFacts QPyFacts NpFacts HeuristicFacts.
Local Open Scope Q_scope.

(** The guards of the four rules as inequalities on the means. *)
Lemma dominance_iff (a b c : Q) :
  QPy.geb (a - QPy.max b c) 20 = true <-> b + 20 <= a /\ c + 20 <= a.
Proof.
  rewrite geb_spec. unfold QPy.max.
  destruct (QPy.gtb c b) eqn:H.
  - apply gtb_spec in H. split; [intros ?; split; lra | intros [? ?]; lra].
  - apply gtb_false in H. split; [intros ?; split; lra | intros [? ?]; lra].
Qed.

Lemma yellow_iff (Rm Gm Bm : Q) :
  QPy.gtb Rm 120 && QPy.gtb Gm 120 && QPy.ltb Bm 100 = true
  <-> 120 < Rm /\ 120 < Gm /\ Bm < 100.
Proof.
  rewrite !andb_true_iff, !gtb_spec, ltb_spec. tauto.
Qed.

Lemma rust_iff (Rm Gm Bm : Q) :
  (QPy.gtb Rm Gm && QPy.gtb Gm Bm)
  && (QPy.ltb 60 (brightness Rm Gm Bm) && QPy.ltb (brightness Rm Gm Bm) 180) = true
  <-> Gm < Rm /\ Bm < Gm /\ 180 < Rm + Gm + Bm /\ Rm + Gm + Bm < 540.
Proof.
  rewrite !andb_true_iff, !gtb_spec, !ltb_spec.
  unfold brightness, Qdiv. change (/ 3) with (1 # 3).
  split; intros H; repeat split; lra.
Qed.

(** Turn the outcome of a guard into the inequalities it stands for. *)
Ltac guard_to_prop H :=
  first
    [ apply dominance_iff in H
    | apply yellow_iff in H
    | apply rust_iff in H
    | apply not_true_iff_false in H;
      first [ rewrite dominance_iff in H
            | rewrite yellow_iff in H
            | rewrite rust_iff in H ] ].

Lemma heuristic_rules_range (Rm Gm Bm : Q) :
  (0 <= heuristic_rules Rm Gm Bm <= 4)%Z.
Proof.
  unfold heuristic_rules.
  repeat match goal with |- context [if ?b then _ else _] => destruct b end; lia.
Qed.

(** X4.  The decision rules in closed form: which triples of means get each
    class.  Green dominance alone decides class 0; class 2 needs red
    dominance and no yellow; class 3 needs R above G by less than 20. *)
Theorem heuristic_classes_closed_form (Rm Gm Bm : Q) :
  (heuristic_rules Rm Gm Bm = 0%Z <-> Rm + 20 <= Gm /\ Bm + 20 <= Gm)
  /\ (heuristic_rules Rm Gm Bm = 4%Z
      <-> (120 < Rm /\ 120 < Gm /\ Bm < 100) /\ ~ (Rm + 20 <= Gm /\ Bm + 20 <= Gm))
  /\ (heuristic_rules Rm Gm Bm = 2%Z
      <-> (Gm + 20 <= Rm /\ Bm + 20 <= Rm) /\ ~ (120 < Rm /\ 120 < Gm /\ Bm < 100))
  /\ (heuristic_rules Rm Gm Bm = 3%Z
      <-> (Bm < Gm /\ Gm < Rm /\ Rm < Gm + 20
           /\ 180 < Rm + Gm + Bm /\ Rm + Gm + Bm < 540)
          /\ ~ (120 < Rm /\ 120 < Gm /\ Bm < 100)).
Proof.
  unfold heuristic_rules. cbv zeta.
  destruct (QPy.geb (Gm - QPy.max Rm Bm) 20) eqn:H0; guard_to_prop H0.
  { split; [|split; [|split]]; (split; intros H); try discriminate H; try tauto; exfalso; lra. }
  destruct (QPy.gtb Rm 120 && QPy.gtb Gm 120 && QPy.ltb Bm 100) eqn:H1;
    guard_to_prop H1.
  { split; [|split; [|split]]; (split; intros H); try discriminate H; try tauto; exfalso; tauto. }
  destruct (QPy.geb (Rm - QPy.max Gm Bm) 20) eqn:H2; guard_to_prop H2.
  { split; [|split; [|split]]; (split; intros H); try discriminate H; try tauto; exfalso; lra. }
  destruct ((QPy.gtb Rm Gm && QPy.gtb Gm Bm)
            && (QPy.ltb 60 (brightness Rm Gm Bm)
                && QPy.ltb (brightness Rm Gm Bm) 180)) eqn:H3;
    guard_to_prop H3.
  { split; [|split; [|split]]; (split; intros H); try discriminate H; try tauto; lra. }
  split; [|split; [|split]]; (split; intros H); try discriminate H; try tauto; exfalso; tauto.
Qed.

(** X5.  An image without colour is Mosaic: equal channel means, from black to
    white, always get class 1. *)
Theorem grey_is_mosaic (v : Q) : heuristic_rules v v v = 1%Z.
Proof.
  unfold heuristic_rules. cbv zeta.
  destruct (QPy.geb (v - QPy.max v v) 20) eqn:H0; guard_to_prop H0;
    [exfalso; lra|].
  destruct (QPy.gtb v 120 && QPy.gtb v 120 && QPy.ltb v 100) eqn:H1;
    guard_to_prop H1; [exfalso; lra|].
  destruct (QPy.geb (v - QPy.max v v) 20) eqn:H2; guard_to_prop H2;
    [exfalso; lra|].
  destruct ((QPy.gtb v v && QPy.gtb v v)
            && (QPy.ltb 60 (brightness v v v) && QPy.ltb (brightness v v v) 180))
    eqn:H3; guard_to_prop H3; [exfalso; lra|].
  reflexivity.
Qed.

Lemma sumQ_bounds {A} (f : A -> Q) (lo hi : Q) (l : list A) :
  (forall x, In x l -> lo <= f x <= hi) ->
  inject_Z (Z.of_nat (length l)) * lo <= sumQ (map f l)
  /\ sumQ (map f l) <= inject_Z (Z.of_nat (length l)) * hi.
Proof.
  induction l as [|x l IH]; intros Hb.
  - cbn [map sumQ fold_right length]. change (inject_Z (Z.of_nat 0)) with 0.
    split; lra.
  - cbn [map sumQ fold_right length]. fold (sumQ (map f l)).
    destruct IH as [IHlo IHhi]; [intros y Hy; apply Hb; right; exact Hy|].
    destruct (Hb x) as [Hlo Hhi]; [left; reflexivity|].
    rewrite Nat2Z.inj_succ. unfold Z.succ. rewrite inject_Z_plus.
    change (inject_Z 1) with 1. split; lra.
Qed.

(** A mean lies between the bounds of the entries. *)
Lemma mean_bounds (a : ndarray) (lo hi : Q) :
  (size a <> 0)%nat ->
  (forall idx, In idx (indices (shape a)) -> lo <= item a idx <= hi) ->
  lo <= mean a <= hi.
Proof.
  intros Hsz Hb. unfold mean.
  destruct (sumQ_bounds (item a) lo hi (indices (shape a)) Hb) as [Hlo Hhi].
  rewrite length_indices in Hlo, Hhi. fold (size a) in Hlo, Hhi.
  assert (Hpos : 0 < inject_Z (Z.of_nat (size a))).
  { change 0 with (inject_Z 0). rewrite <- Zlt_Qlt. lia. }
  split.
  - apply Qle_shift_div_l; [exact Hpos|]. lra.
  - apply Qle_shift_div_r; [exact Hpos|]. lra.
Qed.

Lemma channel_mean_bounds (h w : nat) (im : image) (c : nat) :
  (0 < h)%nat -> (0 < w)%nat ->
  0 <= mean (channel (asarray h w im) c) <= 255.
Proof.
  intros Hh Hw. apply mean_bounds.
  - unfold size. cbn. nia.
  - intros idx Hin. apply indices_length in Hin. cbn in Hin.
    destruct idx as [|i [|j [|k idx]]]; try discriminate Hin.
    cbn. apply EnsembleFacts.channel_of_range.
Qed.

(** X6.  Whatever the image, the three channel means that the rules see, and
    their brightness, lie in [0, 255]. *)
Theorem rgb_means_in_byte_range (im : image) :
  let '(Rm, Gm, Bm) := rgb_means (asarray 128 128 im) in
  (0 <= Rm <= 255) /\ (0 <= Gm <= 255) /\ (0 <= Bm <= 255)
  /\ (0 <= brightness Rm Gm Bm <= 255).
Proof.
  unfold rgb_means.
  pose proof (channel_mean_bounds 128 128 im 0) as HR.
  pose proof (channel_mean_bounds 128 128 im 1) as HG.
  pose proof (channel_mean_bounds 128 128 im 2) as HB.
  destruct HR as [HR0 HR1]; [lia | lia |].
  destruct HG as [HG0 HG1]; [lia | lia |].
  destruct HB as [HB0 HB1]; [lia | lia |].
  repeat split; try assumption;
    unfold brightness, Qdiv; change (/ 3) with (1 # 3); lra.
Qed.

(** X7.  An image of one colour is classified by that colour alone: the rules
    are applied to its three byte values. *)
Theorem solid_image_class (w : world) (path : string) (p : rgb) :
  image_open_rgb w path (128, 128)%nat = Return (Fixtures.solid p) ->
  heuristic_predict w path
  = ([EvImageOpen path],
     Return (heuristic_rules (channel_of p 0) (channel_of p 1) (channel_of p 2))).
Proof.
  intros Hopen. rewrite heuristic_predict_unfold, Hopen.
  pose proof (solid_means 128 128 p) as H.
  destruct (rgb_means (asarray 128 128 (Fixtures.solid p))) as [[Rm Gm] Bm].
  destruct H as (HR & HG & HB); [lia | lia |].
  rewrite (heuristic_rules_compat _ _ _ _ _ _ HR HG HB). reflexivity.
Qed.

Lemma solid_image_class_witness :
  heuristic_predict
    (Fixtures.world_of None (Some (Fixtures.solid Fixtures.green)))
    "field.jpg"%string
  = ([EvImageOpen "field.jpg"%string], Return 0%Z).
Proof.
  apply (solid_image_class
           (Fixtures.world_of None (Some (Fixtures.solid Fixtures.green)))
           "field.jpg"%string Fixtures.green).
  reflexivity.
Defined.

(** The runs of [predict_sugarcane] when no model is loaded. *)
Lemma fallback_runs (w : world) (demo : bool) (path : string) :
  Forall (fun run : M event Z =>
            (exists v, result run = Return v /\ (0 <= v <= 4)%Z)
            /\ (trace run = [] \/ trace run = [EvImageOpen path]))
         (predict_sugarcane w [] demo path).
Proof.
  destruct demo.
  - change (predict_sugarcane w [] true path)
      with [@ret event Z 0%Z; ret 1%Z; ret 2%Z; ret 3%Z; ret 4%Z].
    repeat (constructor;
            [split; [eexists; split; [reflexivity | lia] | left; reflexivity]|]).
    constructor.
  - change (predict_sugarcane w [] false path) with [heuristic_predict w path].
    constructor; [|constructor].
    rewrite heuristic_predict_unfold.
    destruct (image_open_rgb w path (128, 128)%nat) as [im | e]; cbn [result trace fst snd].
    + split; [|right; reflexivity].
      destruct (rgb_means (asarray 128 128 im)) as [[Rm Gm] Bm].
      eexists. split; [reflexivity | apply heuristic_rules_range].
    + split; [|right; reflexivity]. eexists. split; [reflexivity | lia].
Qed.

(** X3.  Without a model [predict_sugarcane] cannot fail: whatever the image
    and the demo flag, every outcome is a returned class in [0, 4], and the
    only call into the world is at most one read of the image by the
    heuristic. *)
Theorem fallback_total_in_range (w : world) (demo : bool) (path : string) :
  Forall (fun run : M event Z =>
            (exists v, result run = Return v /\ (0 <= v <= 4)%Z)
            /\ (trace run = [] \/ trace run = [EvImageOpen path]))
         (predict_sugarcane w [] demo path).
Proof. apply fallback_runs. Qed.

End HeuristicMore.

(** ** Start-up of the disease service *)

Module StartupFacts.
Import Np Sugarcane.

Lemma try_load_Some (w : world) (p : string) (m : model) :
  _try_load w p = Some m <-> path_exists w p = true /\ load_model w p = Return m.
Proof.
  unfold _try_load. destruct (path_exists w p).
  - destruct (load_model w p) as [m' | e].
    + split; [intros H; injection H as ->; auto | intros [_ H]; injection H as ->; reflexivity].
    + split; [discriminate | intros [_ H]; discriminate H].
  - split; [discriminate | intros [H _]; discriminate H].
Qed.

(** X1.  Loading is fault-isolated: a model is in [models] exactly when it is
    what one of the four candidate files loads to, whatever happens to the
    other files; at most four models are loaded; and there is none exactly
    when every candidate is missing or fails to load. *)
Theorem models_are_the_loadable_candidates (w : world) :
  (forall m, In m (models w)
             <-> exists p, In p _candidates
                           /\ path_exists w p = true
                           /\ load_model w p = Return m)
  /\ (length (models w) <= 4)%nat
  /\ (MODEL_PRESENT (models w) = false
      <-> forall p, In p _candidates ->
                    path_exists w p = false \/ exists e, load_model w p = Raise e).
Proof.
  assert (Hmem : forall m, In m (models w)
                           <-> exists p, In p _candidates
                                         /\ path_exists w p = true
                                         /\ load_model w p = Return m).
  { intros m. unfold models. rewrite in_flat_map. split.
    - intros (p & Hp & Hin). exists p. split; [exact Hp|].
      apply try_load_Some. destruct (_try_load w p) as [m'|]; [|destruct Hin].
      destruct Hin as [-> | []]. reflexivity.
    - intros (p & Hp & Hex & Hload). exists p. split; [exact Hp|].
      rewrite (proj2 (try_load_Some w p m) (conj Hex Hload)). left. reflexivity. }
  split; [exact Hmem|]. split.
  - unfold models, _candidates. cbn [flat_map]. rewrite !length_app.
    repeat match goal with
           | |- context [_try_load w ?p] => destruct (_try_load w p)
           end; cbn; lia.
  - unfold MODEL_PRESENT. rewrite Nat.ltb_ge. split.
    + intros Hlen p Hp.
      destruct (path_exists w p) eqn:Hex; [|left; reflexivity]. right.
      destruct (load_model w p) as [m | e] eqn:Hload; [|eauto].
      exfalso. assert (Hin : In m (models w)) by (apply Hmem; eauto).
      destruct (models w); [destruct Hin | cbn in Hlen; lia].
    + intros Hall. destruct (models w) as [|m ms] eqn:Hms; [cbn; lia|].
      exfalso. assert (Hin : In m (m :: ms)) by (left; reflexivity).
      apply Hmem in Hin. destruct Hin as (p & Hp & Hex & Hload).
      destruct (Hall p Hp) as [Hno | (e & He)]; congruence.
Qed.

(** One corrupt file among three present ones: the two others are loaded. *)
Example corrupt_file_is_skipped (m : model) :
  length (models (Cases.machine
                    [ "./models/model2_84percentacc.h5"; "./models/82_test_acc.h5";
                      "./models/inceptionv3_80.h5" ]%string
                    [ "./models/82_test_acc.h5" ]%string m)) = 2%nat.
Proof. reflexivity. Qed.

End StartupFacts.

(** ** More on the ensemble predictor *)

Module EnsembleMore.
Import Np Sugarcane PyFacts QPyFacts NpFacts EnsembleFacts.
Local Open Scope Q_scope.

Lemma trace_bind {E A B} (c : M E A) (k : A -> M E B) :
  trace (bind c k)
  = trace c ++ match result c with
               | Return a => trace (k a)
               | Raise _ => []
               end.
Proof.
  destruct c as [t [a | e]]; cbn.
  - destruct (k a). reflexivity.
  - symmetry. apply app_nil_r.
Qed.

Lemma result_bind {E A B} (c : M E A) (k : A -> M E B) :
  result (bind c k)
  = match result c with
    | Return a => result (k a)
    | Raise e => Raise e
    end.
Proof.
  destruct c as [t [a | e]]; cbn; [destruct (k a)|]; reflexivity.
Qed.

(** The models are called on one tensor, one after the other, until one
    raises. *)
Lemma for_each_predict_trace (x : ndarray) (ms : list model) :
  exists k, (k <= length ms)%nat
            /\ trace (for_each (fun m : model => call (EvPredict x) (m x)) ms)
               = repeat (EvPredict x) k.
Proof.
  induction ms as [|m ms (k & Hk & IH)].
  - exists 0%nat. split; [lia | reflexivity].
  - cbn [for_each]. rewrite trace_bind. cbn [call trace result fst snd].
    destruct (m x) as [p | e].
    + exists (S k). split; [cbn; lia|].
      rewrite trace_bind, IH. cbn [repeat app]. f_equal.
      destruct (result (for_each _ ms)); cbn; apply app_nil_r.
    + exists 1%nat. split; [cbn; lia | reflexivity].
Qed.

Lemma for_each_predict_raise (x : ndarray) (ms1 : list model) (m : model)
      (ms2 : list model) (outs1 : list ndarray) (e : exn) :
  Forall2 (fun m p => m x = Return p) ms1 outs1 ->
  m x = Raise e ->
  for_each (fun m : model => call (EvPredict x) (m x)) (ms1 ++ m :: ms2)
  = (map (fun _ => EvPredict x) (ms1 ++ [m]), Raise e).
Proof.
  intros Hruns Hm. induction Hruns as [|m1 p1 ms1 outs1 H1 _ IH].
  - cbn [app for_each]. rewrite Hm. reflexivity.
  - cbn [app for_each]. rewrite H1. unfold call at 1. rewrite bind_return.
    rewrite IH. reflexivity.
Qed.

(** Everything after the calls of the models is arithmetic. *)
Lemma ensemble_tail_silent (preds : list ndarray) :
  trace (E := event)
        (preds_array <- lift (array preds) ;;
         avg_preds <- lift (mean_axis0 preds_array) ;;
         am <- lift (argmax_axis1 avg_preds) ;;
         label_idx <- lift (first am) ;;
         ret (Z.of_nat label_idx)) = [].
Proof.
  destruct (array preds) as [a | e]; [rewrite bind_lift_return | reflexivity].
  destruct (mean_axis0 a) as [b | e]; [rewrite bind_lift_return | reflexivity].
  destruct (argmax_axis1 b) as [am | e]; [rewrite bind_lift_return | reflexivity].
  destruct (first am) as [l | e]; [rewrite bind_lift_return | reflexivity].
  reflexivity.
Qed.

(** X8.  Unlike the heuristic, the ensemble path does not catch a failed read:
    with a model loaded, an image that cannot be loaded makes
    [predict_sugarcane] raise the reader's exception, before any model is
    called. *)
Theorem unreadable_image_propagates
        (w : world) (ms : list model) (demo : bool) (path : string) (e : exn) :
  ms <> [] ->
  load_img w path (224, 224)%nat = Raise e ->
  predict_sugarcane w ms demo path
  = [ ([EvLoadImg path (224, 224)%nat], Raise e) ].
Proof.
  intros Hne Hload. unfold predict_sugarcane.
  destruct ms as [|m0 ms]; [congruence|].
  change (MODEL_PRESENT (m0 :: ms)) with true. cbn [negb orb].
  unfold Rand.certainly, preprocess_image, call. rewrite Hload. reflexivity.
Qed.

Lemma unreadable_image_propagates_witness :
  predict_sugarcane (Fixtures.world_of None None) Fixtures.split_ensemble
                    false "missing.png"%string
  = [ ([EvLoadImg "missing.png"%string (224, 224)%nat],
       Raise (Fixtures.FileNotFoundError "missing.png"%string)) ].
Proof.
  apply (unreadable_image_propagates
           (Fixtures.world_of None None) Fixtures.split_ensemble false
           "missing.png"%string (Fixtures.FileNotFoundError "missing.png"%string)).
  - discriminate.
  - reflexivity.
Defined.

(** X9.  A model that raises ends the prediction with its exception: the models
    before it have been called, the models after it are not, and no class
    is returned. *)
Theorem failing_model_propagates
        (w : world) (ms1 : list model) (m : model) (ms2 : list model)
        (demo : bool) (path : string) (x : ndarray) (outs1 : list ndarray)
        (e : exn) :
  result (preprocess_image w path (224, 224)%nat) = Return x ->
  Forall2 (fun m p => m x = Return p) ms1 outs1 ->
  m x = Raise e ->
  predict_sugarcane w (ms1 ++ m :: ms2) demo path
  = [ (EvLoadImg path (224, 224)%nat :: map (fun _ => EvPredict x) (ms1 ++ [m]),
       Raise e) ].
Proof.
  intros Hpre Hruns Hm.
  destruct (preprocess_image_inv w path x Hpre) as (img & _ & _ & Hrun).
  unfold predict_sugarcane.
  assert (Hnil : negb (MODEL_PRESENT (ms1 ++ m :: ms2))
                 || match ms1 ++ m :: ms2 with [] => true | _ => false end = false).
  { destruct ms1; reflexivity. }
  rewrite Hnil. unfold Rand.certainly. f_equal.
  rewrite Hrun, bind_return.
  rewrite (for_each_predict_raise x ms1 m ms2 outs1 e Hruns Hm).
  reflexivity.
Qed.

Lemma failing_model_propagates_witness :
  predict_sugarcane
    (Fixtures.world_of None (Some (Fixtures.solid Fixtures.green)))
    ([Fixtures.probs_model [0; 1; 0; 0; 0]] ++ Cases.broken_model
       :: [Fixtures.probs_model [1; 0; 0; 0; 0]])
    false "leaf.png"%string
  = [ (EvLoadImg "leaf.png"%string (224, 224)%nat
         :: map (fun _ => EvPredict
                            (divide (expand_dims0
                                       (asarray 224 224 (Fixtures.solid Fixtures.green)))
                                    255))
                ([Fixtures.probs_model [0; 1; 0; 0; 0]] ++ [Cases.broken_model]),
       Raise (Exception "InvalidArgumentError" "Graph execution error")) ].
Proof.
  apply (failing_model_propagates
           (Fixtures.world_of None (Some (Fixtures.solid Fixtures.green)))
           [Fixtures.probs_model [0; 1; 0; 0; 0]] Cases.broken_model
           [Fixtures.probs_model [1; 0; 0; 0; 0]] false "leaf.png"%string
           (divide (expand_dims0 (asarray 224 224 (Fixtures.solid Fixtures.green))) 255)
           [ {| shape := [1%nat; 5%nat];
                item idx := match idx with
                            | [_; j] => nth j [0; 1; 0; 0; 0] 0
                            | _ => 0
                            end |} ]).
  - reflexivity.
  - repeat constructor.
  - reflexivity.
Defined.

Lemma argmax_fold_compat (f g : nat -> Q) (l : list nat) (b : nat) :
  (forall j, f j == g j) ->
  fold_left (fun best j => if QPy.gtb (f j) (f best) then j else best) l b
  = fold_left (fun best j => if QPy.gtb (g j) (g best) then j else best) l b.
Proof.
  intros Hfg. revert b.
  induction l as [|j l IH]; intros b; [reflexivity|].
  cbn [fold_left]. rewrite (gtb_proper _ _ (Hfg j) _ _ (Hfg b)). apply IH.
Qed.

(** X10.  With one model loaded the ensemble is that model: the class returned
    is the first arg-max of the model's own probability vector. *)
Theorem single_model_decides
        (w : world) (m : model) (demo : bool) (path : string)
        (x p : ndarray) (C : nat) :
  result (preprocess_image w path (224, 224)%nat) = Return x ->
  m x = Return p ->
  shape p = [1; C]%nat ->
  (0 < C)%nat ->
  predict_sugarcane w [m] demo path
  = [ ([EvLoadImg path (224, 224)%nat; EvPredict x],
       Return (Z.of_nat (argmax_row (fun j => item p [0; j]%nat) C))) ]
  /\ solo_votes [p] C = [argmax_row (fun j => item p [0; j]%nat) C].
Proof.
  intros Hpre Hm Hshape HC. split; [|reflexivity].
  destruct (preprocess_image_inv w path x Hpre) as (img & _ & _ & Hrun).
  rewrite (ensemble_run w [m] demo path x [p] C); try assumption.
  - cbn [map]. do 4 f_equal. unfold argmax_row. apply argmax_fold_compat.
    intros j. unfold spec_average. cbn [map sumQ fold_right length].
    change (inject_Z (Z.of_nat 1)) with 1. field.
  - discriminate.
  - repeat constructor. exact Hm.
  - repeat constructor. exact Hshape.
Qed.

Lemma single_model_decides_witness :
  predict_sugarcane
    (Fixtures.world_of None (Some (Fixtures.solid Fixtures.green)))
    [Fixtures.probs_model [1 # 10; 2 # 10; 5 # 10; 1 # 10; 1 # 10]]
    true "leaf.png"%string
  = [ ([EvLoadImg "leaf.png"%string (224, 224)%nat;
        EvPredict (divide (expand_dims0
                             (asarray 224 224 (Fixtures.solid Fixtures.green))) 255)],
       Return 2%Z) ].
Proof.
  refine (proj1 (single_model_decides
                   (Fixtures.world_of None (Some (Fixtures.solid Fixtures.green)))
                   (Fixtures.probs_model [1 # 10; 2 # 10; 5 # 10; 1 # 10; 1 # 10])
                   true "leaf.png"%string
                   (divide (expand_dims0
                              (asarray 224 224 (Fixtures.solid Fixtures.green))) 255)
                   {| shape := [1%nat; 5%nat];
                      item idx := match idx with
                                  | [_; j] => nth j [1 # 10; 2 # 10; 5 # 10; 1 # 10; 1 # 10] 0
                                  | _ => 0
                                  end |}
                   5%nat _ _ _ _)).
  - reflexivity.
  - reflexivity.
  - reflexivity.
  - lia.
Defined.

(** X11.  Once a model is loaded, demo mode plays no part and nothing is random:
    [predict_sugarcane] has a single outcome, the same with the flag on or
    off.  Its run reads the image once through [load_img], never through
    the heuristic's reader, and then only calls models, at most once each,
    all on the preprocessed tensor. *)
Theorem loaded_models_override_demo_mode
        (w : world) (m : model) (ms : list model) (path : string) :
  predict_sugarcane w (m :: ms) true path = predict_sugarcane w (m :: ms) false path
  /\ exists run calls,
      predict_sugarcane w (m :: ms) true path = [run]
      /\ trace run = EvLoadImg path (224, 224)%nat :: calls
      /\ (length calls <= length (m :: ms))%nat
      /\ (forall ev, In ev calls ->
            exists x, ev = EvPredict x
                      /\ result (preprocess_image w path (224, 224)%nat) = Return x).
Proof.
  split; [reflexivity|].
  assert (Hrun : predict_sugarcane w (m :: ms) true path
                 = [ x <- preprocess_image w path (224, 224)%nat ;;
                     preds <- for_each (fun m : model => call (EvPredict x) (m x))
                                       (m :: ms) ;;
                     preds_array <- lift (array preds) ;;
                     avg_preds <- lift (mean_axis0 preds_array) ;;
                     am <- lift (argmax_axis1 avg_preds) ;;
                     label_idx <- lift (first am) ;;
                     ret (Z.of_nat label_idx) ]) by reflexivity.
  rewrite Hrun. clear Hrun.
  destruct (load_img w path (224, 224)%nat) as [img | e] eqn:Hload.
  - set (x := divide (expand_dims0 (asarray 224 224 img)) 255).
    assert (Hpre : preprocess_image w path (224, 224)%nat
                   = ([EvLoadImg path (224, 224)%nat], Return x)).
    { unfold preprocess_image, call. rewrite Hload. reflexivity. }
    destruct (for_each_predict_trace x (m :: ms)) as (k & Hk & Htr).
    eexists _, (repeat (EvPredict x) k). split; [reflexivity|].
    split; [|split].
    + rewrite trace_bind, Hpre. cbn [trace result fst snd app]. f_equal.
      rewrite trace_bind. change (@fst (list event)) with (@trace event) in Htr.
      rewrite Htr.
      destruct (result (for_each _ (m :: ms)));
        [rewrite ensemble_tail_silent|]; apply app_nil_r.
    + rewrite repeat_length. exact Hk.
    + intros ev Hin. apply repeat_spec in Hin. exists x. split; [exact Hin|].
      rewrite Hpre. reflexivity.
  - eexists _, []. split; [reflexivity|]. split; [|split].
    + rewrite trace_bind. unfold preprocess_image, call. rewrite Hload.
      reflexivity.
    + cbn. lia.
    + intros ev [].
Qed.

End EnsembleMore.

(** ** More on demo mode *)

Module DemoMore.
Import Np Sugarcane PyStr PyStrFacts.

Lemma lstrip_spaces (l s : str) :
  Forall (fun c => isspace c = true) l -> lstrip (l ++ s) = lstrip s.
Proof.
  intros Hl. induction Hl as [|x l Hx _ IH]; [reflexivity|].
  cbn. rewrite Hx. exact IH.
Qed.

Lemma lstrip_only_spaces (l : str) :
  Forall (fun c => isspace c = true) l -> lstrip l = [].
Proof.
  intros Hl. rewrite <- (app_nil_r l). rewrite lstrip_spaces by exact Hl.
  reflexivity.
Qed.

Lemma rstrip_spaces (s r : str) :
  Forall (fun c => isspace c = true) r -> rstrip (s ++ r) = rstrip s.
Proof.
  intros Hr. unfold rstrip. rewrite rev_app_distr.
  rewrite lstrip_spaces by (apply Forall_rev; exact Hr). reflexivity.
Qed.

(** White space around a string does not change what [strip] gives. *)
Lemma strip_padding (l v r : str) :
  Forall (fun c => isspace c = true) l ->
  Forall (fun c => isspace c = true) r ->
  strip (l ++ v ++ r) = strip v.
Proof.
  intros Hl Hr. unfold strip. rewrite lstrip_spaces by exact Hl.
  destruct (lstrip_spec v) as (l0 & Hl0 & Hv & Hhd).
  destruct (lstrip v) as [|c t] eqn:Hlv.
  - rewrite app_nil_r in Hv. subst l0.
    rewrite lstrip_spaces by exact Hl0.
    rewrite lstrip_only_spaces by exact Hr. reflexivity.
  - assert (Hc : isspace c = false) by (eapply Hhd; reflexivity).
    rewrite Hv at 1. rewrite <- app_assoc. rewrite lstrip_spaces by exact Hl0.
    cbn [app lstrip]. rewrite Hc.
    change (c :: t ++ r) with ((c :: t) ++ r).
    apply rstrip_spaces. exact Hr.
Qed.

(** X12.  Demo mode does not see white space around the value of the variable:
    padding the value on either side leaves the toggle as it was. *)
Theorem demo_mode_ignores_padding (w w' : world) (l v r : str) :
  getenv w "SUGARCANE_DEMO_MODE" = Some v ->
  getenv w' "SUGARCANE_DEMO_MODE" = Some (l ++ v ++ r) ->
  Forall (fun c => isspace c = true) l ->
  Forall (fun c => isspace c = true) r ->
  DEMO_MODE w' = DEMO_MODE w.
Proof.
  intros Hw Hw' Hl Hr. unfold DEMO_MODE. rewrite Hw, Hw'.
  cbn [default from_option id]. rewrite strip_padding by assumption.
  reflexivity.
Qed.

Lemma demo_mode_ignores_padding_witness :
  DEMO_MODE (Fixtures.world_of (Some (lit "  " ++ lit "1" ++ [9%N; 10%N])) None)
  = DEMO_MODE (Fixtures.world_of (Some (lit "1")) None).
Proof.
  apply (demo_mode_ignores_padding
           (Fixtures.world_of (Some (lit "1")) None)
           (Fixtures.world_of (Some (lit "  " ++ lit "1" ++ [9%N; 10%N])) None)
           (lit "  ") (lit "1") [9%N; 10%N]).
  - reflexivity.
  - reflexivity.
  - repeat constructor.
  - repeat constructor.
Defined.

End DemoMore.

(** ** More on the crop recommendation handler *)

Module CropMore.
Import Crop PyFacts CropFacts.
Local Open Scope string_scope.

Lemma previous_crop_code_range (key : pyval) (pc : Z) :
  table_get previous_crop_mapping key (-1) = Return pc -> pc = -1 \/ 1 <= pc <= 7.
Proof.
  unfold table_get. destruct (hashable key); [|discriminate].
  destruct key; intros H; injection H as <-; auto.
  destruct (previous_crop_mapping !! s) as [v|] eqn:Hs; cbn; [|auto].
  right. eapply previous_crop_codes. exact Hs.
Qed.

Lemma soil_type_code_range (key : pyval) (st : Z) :
  table_get soil_type_mapping key (-1) = Return st -> st = -1 \/ 1 <= st <= 4.
Proof.
  unfold table_get. destruct (hashable key); [|discriminate].
  destruct key; intros H; injection H as <-; auto.
  destruct (soil_type_mapping !! s) as [v|] eqn:Hs; cbn; [|auto].
  right. eapply soil_type_codes. exact Hs.
Qed.

(** X13.  What a category value of any JSON type is turned into.  A list or an
    object cannot be looked up and raises TypeError.  Every other value
    gets a code: the table's code, between 1 and 7 (1 and 4 for the soil),
    for a string of the table, and -1 for everything else, be it an unknown
    string, a number, a boolean or null. *)
Theorem category_code_by_type (key : pyval) :
  (hashable key = false ->
     table_get previous_crop_mapping key (-1)
     = Raise (TypeError ("unhashable type: '" ++ type_name key ++ "'"))
     /\ table_get soil_type_mapping key (-1)
        = Raise (TypeError ("unhashable type: '" ++ type_name key ++ "'")))
  /\ (hashable key = true ->
        exists pc st,
          table_get previous_crop_mapping key (-1) = Return pc
          /\ table_get soil_type_mapping key (-1) = Return st
          /\ (pc <> -1 <-> exists s, key = PStr s /\ previous_crop_mapping !! s = Some pc)
          /\ (st <> -1 <-> exists s, key = PStr s /\ soil_type_mapping !! s = Some st)
          /\ (pc = -1 \/ 1 <= pc <= 7)
          /\ (st = -1 \/ 1 <= st <= 4)).
Proof.
  split.
  - intros Hun. unfold table_get. rewrite Hun. split; reflexivity.
  - intros Hh.
    destruct (table_get_hashable previous_crop_mapping key (-1) Hh) as (pc & Hpc).
    destruct (table_get_hashable soil_type_mapping key (-1) Hh) as (st & Hst).
    exists pc, st. split; [exact Hpc|]. split; [exact Hst|].
    split; [|split; [|split]].
    + revert Hpc. unfold table_get. rewrite Hh.
      destruct key; intros H; injection H as <-;
        try (split; [intros Hne; exfalso; apply Hne; reflexivity
                    | intros (s & Hs & _); discriminate Hs]).
      destruct (previous_crop_mapping !! s) as [v|] eqn:Hs; cbn.
      * split; [intros _; exists s; auto|].
        intros _. apply previous_crop_codes in Hs. lia.
      * split; [intros Hne; exfalso; apply Hne; reflexivity|].
        intros (s' & Hs' & Hl). injection Hs' as <-. congruence.
    + revert Hst. unfold table_get. rewrite Hh.
      destruct key; intros H; injection H as <-;
        try (split; [intros Hne; exfalso; apply Hne; reflexivity
                    | intros (s & Hs & _); discriminate Hs]).
      destruct (soil_type_mapping !! s) as [v|] eqn:Hs; cbn.
      * split; [intros _; exists s; auto|].
        intros _. apply soil_type_codes in Hs. lia.
      * split; [intros Hne; exfalso; apply Hne; reflexivity|].
        intros (s' & Hs' & Hl). injection Hs' as <-. congruence.
    + eapply previous_crop_code_range. exact Hpc.
    + eapply soil_type_code_range. exact Hst.
Qed.

(** X14.  The handler calls the classifier at most once, after reading the
    request once, and always with a frame of exactly one row whose six
    columns have the training names in the training order; the two category
    codes are -1 or inside their tables.  Without a classifier it calls
    nothing at all. *)
Theorem model_call_invariant :
  (forall req, trace (crop_recommendation None req) = [])
  /\ (forall mdl req,
         trace (crop_recommendation (Some mdl) req) = [EvRequestJson]
         \/ exists d pc st,
             req = Return (PDict d)
             /\ trace (crop_recommendation (Some mdl) req)
                = [EvRequestJson; EvPredict (feature_frame pc st d)]
             /\ map (map fst) (feature_frame pc st d) = [Cases.request_keys]
             /\ (pc = -1 \/ 1 <= pc <= 7)
             /\ (st = -1 \/ 1 <= st <= 4)).
Proof.
  split; [reflexivity|].
  intros mdl req. rewrite handler_trace.
  destruct req as [data | e]; [|left; reflexivity].
  destruct data as [| | | | |l|d];
    try (left; rewrite try_not_dict by discriminate; reflexivity).
  rewrite try_dict.
  destruct (table_get previous_crop_mapping _ _) as [pc | e] eqn:Hpc;
    [|left; reflexivity].
  destruct (table_get soil_type_mapping _ _) as [st | e] eqn:Hst;
    [|left; reflexivity].
  right. exists d, pc, st. split; [reflexivity|]. split; [reflexivity|].
  split; [reflexivity|]. split.
  - eapply previous_crop_code_range. exact Hpc.
  - eapply soil_type_code_range. exact Hst.
Qed.

(** X15.  Fields of the request other than the six that the handler reads are
    ignored: two request objects that agree on those six keys get the same
    call of the classifier and the same response. *)
Theorem unknown_fields_ignored
        (cm : option model) (d d' : gmap string pyval) :
  (forall k, In k Cases.request_keys -> d !! k = d' !! k) ->
  crop_recommendation cm (Return (PDict d))
  = crop_recommendation cm (Return (PDict d')).
Proof.
  intros Hagree. destruct cm as [mdl|]; [|reflexivity].
  assert (Hf : forall k, In k Cases.request_keys -> field d k = field d' k).
  { intros k Hk. unfold field. rewrite (Hagree k Hk). reflexivity. }
  unfold crop_recommendation. rewrite !try_dict. unfold feature_frame.
  rewrite !(Hf "Previous Crop"), !(Hf "Soil Type"), !(Hf "Moisture Level"),
    !(Hf "Nitrogen (N)"), !(Hf "Phosphorus (P)"), !(Hf "Potassium (K)")
    by (cbn; tauto).
  reflexivity.
Qed.

Lemma unknown_fields_ignored_witness :
  crop_recommendation (Some (Fixtures.always 4)) (Return (PDict Fixtures.wheat_on_loam))
  = crop_recommendation (Some (Fixtures.always 4))
                        (Return (PDict Cases.wheat_on_loam_annotated)).
Proof.
  apply (unknown_fields_ignored
           (Some (Fixtures.always 4)) Fixtures.wheat_on_loam
           Cases.wheat_on_loam_annotated).
  intros k Hk. cbn in Hk.
  destruct Hk as [<- | [<- | [<- | [<- | [<- | [<- | []]]]]]];
    vm_compute; reflexivity.
Defined.

(** Enumerate the entries of a table literal that a lookup may have hit,
    keeping one goal per entry. *)
Ltac table_cases H :=
  repeat (apply lookup_insert_Some in H;
          destruct H as [[? ?] | [_ H]]; [subst|]);
  try (apply lookup_singleton_Some in H; destruct H as [? ?]; subst).

(** X16.  The three tables are one-to-one: two different categories never share
    a code, and two different class indices never share a crop name. *)
Theorem tables_are_injective :
  (forall s1 s2 c, previous_crop_mapping !! s1 = Some c ->
                   previous_crop_mapping !! s2 = Some c -> s1 = s2)
  /\ (forall s1 s2 c, soil_type_mapping !! s1 = Some c ->
                      soil_type_mapping !! s2 = Some c -> s1 = s2)
  /\ (forall i j name, crop_mapping !! i = Some name ->
                       crop_mapping !! j = Some name -> i = j).
Proof.
  split; [|split].
  - intros s1 s2 c H1 H2. unfold previous_crop_mapping in H1, H2.
    table_cases H1; table_cases H2; first [reflexivity | discriminate].
  - intros s1 s2 c H1 H2. unfold soil_type_mapping in H1, H2.
    table_cases H1; table_cases H2; first [reflexivity | discriminate].
  - intros i j name H1 H2. unfold crop_mapping in H1, H2.
    table_cases H1; table_cases H2; first [reflexivity | discriminate].
Qed.

(** X17.  The label table is not the inverse of the Previous Crop table: every
    previous crop is a crop that can be recommended, but under a different
    number, so a category code must not be read as a class index. *)
Theorem category_codes_are_not_class_indices :
  (forall s c, previous_crop_mapping !! s = Some c ->
               crop_mapping !! c <> Some s
               /\ exists i, crop_mapping !! i = Some s /\ i <> c)
  /\ (forall i, crop_mapping !! i = Some "Rice" -> i = 2)
  /\ previous_crop_mapping !! "Rice" = None.
Proof.
  split; [|split].
  - intros s c H. unfold previous_crop_mapping in H.
    table_cases H; (split; [vm_compute; discriminate|]).
    + exists 5. split; [reflexivity | lia].
    + exists 3. split; [reflexivity | lia].
    + exists 1. split; [reflexivity | lia].
    + exists 6. split; [reflexivity | lia].
    + exists 4. split; [reflexivity | lia].
    + exists 7. split; [reflexivity | lia].
    + exists 8. split; [reflexivity | lia].
  - intros i H. unfold crop_mapping in H.
    table_cases H; first [reflexivity | discriminate].
  - reflexivity.
Qed.

(** X18.  Every response is an object with one key.  A "Recommended Crop" is
    answered only after the classifier has been called, always with status
    200, and its value is one of the eight crop names or the text "No
    prediction available"; every other response is an "error". *)
Theorem response_shape (cm : option model) (req : outcome pyval) :
  exists resp,
    result (crop_recommendation cm req) = Return resp
    /\ ((exists msg, body resp = [("error", msg)])
        \/ (exists name df,
               body resp = [("Recommended Crop", name)]
               /\ status resp = 200
               /\ trace (crop_recommendation cm req) = [EvRequestJson; EvPredict df]
               /\ (name = "No prediction available"
                   \/ exists i, 1 <= i <= 8 /\ crop_mapping !! i = Some name))).
Proof.
  rewrite handler_result, handler_trace.
  destruct cm as [mdl|]; [|eexists; split; [reflexivity | left; eexists; reflexivity]].
  destruct req as [data | e];
    [|eexists; split; [reflexivity | left; eexists; reflexivity]].
  destruct data as [| | | | |l|d];
    try (rewrite try_not_dict by discriminate;
         eexists; split; [reflexivity | left; eexists; reflexivity]).
  rewrite try_dict.
  destruct (table_get previous_crop_mapping _ _) as [pc | e];
    [|eexists; split; [reflexivity | left; eexists; reflexivity]].
  destruct (table_get soil_type_mapping _ _) as [st | e];
    [|eexists; split; [reflexivity | left; eexists; reflexivity]].
  cbn [result trace fst snd].
  destruct (mdl (feature_frame pc st d)) as [[|p0 rest] | e];
    try (eexists; split; [reflexivity | left; eexists; reflexivity]).
  eexists. split; [reflexivity|]. right.
  exists (default "No prediction available" (crop_mapping !! p0)),
         (feature_frame pc st d).
  repeat (split; [reflexivity|]).
  destruct (crop_mapping !! p0) as [name|] eqn:Hp0; [|left; reflexivity].
  right. exists p0. split; [|exact Hp0].
  apply crop_mapping_keys. eauto.
Qed.

(** X19.  Only the first entry of the prediction is used: two classifiers whose
    answers raise the same exception, or start with the same class, get
    the same result from the handler on every request. *)
Theorem only_first_prediction_counts
        (mdl mdl' : model) (req : outcome pyval) :
  (forall pc st d, Cases.same_head (mdl (feature_frame pc st d))
                                   (mdl' (feature_frame pc st d))) ->
  result (crop_recommendation (Some mdl) req)
  = result (crop_recommendation (Some mdl') req).
Proof.
  intros Hsame. rewrite !handler_result.
  destruct req as [data | e]; [|reflexivity].
  destruct data as [| | | | |l|d];
    try (rewrite !try_not_dict by discriminate; reflexivity).
  rewrite !try_dict.
  destruct (table_get previous_crop_mapping _ _) as [pc | e]; [|reflexivity].
  destruct (table_get soil_type_mapping _ _) as [st | e]; [|reflexivity].
  cbn [result snd]. specialize (Hsame pc st d).
  destruct (mdl (feature_frame pc st d)) as [[|p0 rest] | e],
           (mdl' (feature_frame pc st d)) as [[|p0' rest'] | e'];
    cbn in Hsame; try contradiction; subst; reflexivity.
Qed.

Lemma only_first_prediction_counts_witness :
  result (crop_recommendation (Some (Fixtures.always 2))
                              (Return (PDict Fixtures.rice_on_peat)))
  = result (crop_recommendation (Some Cases.chatty)
                                (Return (PDict Fixtures.rice_on_peat))).
Proof.
  apply (only_first_prediction_counts
           (Fixtures.always 2) Cases.chatty (Return (PDict Fixtures.rice_on_peat))).
  intros pc st d. reflexivity.
Defined.

(** X20.  A classifier that answers with no prediction at all is handled like a
    failure: the response is an "error" body with status 200. *)
Theorem empty_prediction_is_an_error
        (mdl : model) (req : outcome pyval) (df : dataframe) :
  trace (crop_recommendation (Some mdl) req) = [EvRequestJson; EvPredict df] ->
  mdl df = Return [] ->
  exists msg,
    result (crop_recommendation (Some mdl) req)
    = Return {| body := [("error", msg)]; status := 200 |}.
Proof.
  intros Htrace Hmdl.
  destruct (reaches_model mdl req df Htrace) as (d & pc & st & -> & Hpc & Hst & ->).
  rewrite handler_result, try_dict, Hpc, Hst. cbn [result snd]. rewrite Hmdl.
  eexists. reflexivity.
Qed.

Lemma empty_prediction_is_an_error_witness :
  exists msg,
    result (crop_recommendation (Some Cases.silent)
                                (Return (PDict Fixtures.wheat_on_loam)))
    = Return {| body := [("error", msg)]; status := 200 |}.
Proof.
  apply (empty_prediction_is_an_error
           Cases.silent (Return (PDict Fixtures.wheat_on_loam))
           (feature_frame 3 1 Fixtures.wheat_on_loam)).
  - vm_compute. reflexivity.
  - reflexivity.
Defined.

End CropMore.

(** ** The disease service on a machine without models *)

Module ServiceFacts.
Import Np Sugarcane HeuristicMore.

Lemma models_nil_of_missing (w : world) :
  (forall p, In p _candidates -> path_exists w p = false) ->
  models w = [].
Proof.
  intros Hmissing. unfold models, _candidates, _try_load. cbn [flat_map].
  rewrite !Hmissing by (cbn; tauto). reflexivity.
Qed.

(** X2.  A machine on which none of the four model files exists still answers
    every call: [load_model] is not needed, and every outcome of the
    service is a returned class in [0, 4], with at most one read of the
    image, whether the image can be read or not and whatever the
    environment says about demo mode. *)
Theorem service_without_model_files (w : world) (path : string) :
  (forall p, In p _candidates -> path_exists w p = false) ->
  models w = []
  /\ Forall (fun run : M event Z =>
               (exists v, result run = Return v /\ (0 <= v <= 4)%Z)
               /\ (trace run = [] \/ trace run = [EvImageOpen path]))
            (service w path).
Proof.
  intros Hmissing. pose proof (models_nil_of_missing w Hmissing) as Hnil.
  split; [exact Hnil|]. unfold service. rewrite Hnil. apply fallback_runs.
Qed.

Lemma service_without_model_files_witness :
  Forall (fun run : M event Z =>
            (exists v, result run = Return v /\ (0 <= v <= 4)%Z)
            /\ (trace run = [] \/ trace run = [EvImageOpen "missing.png"%string]))
         (service (Fixtures.world_of None None) "missing.png"%string).
Proof.
  refine (proj2 (service_without_model_files
                   (Fixtures.world_of None None) "missing.png"%string _)).
  intros p _. reflexivity.
Defined.

End ServiceFacts.

(** ** The ensemble branch in float32 *)

Module F32Facts.
Import F32 PyFacts.
Local Open Scope Z_scope.

(** *** The order that [np.argmax] compares with *)

Ltac compare_cases :=
  repeat match goal with
         | |- context [Z.compare ?a ?b] => destruct (Z.compare_spec a b)
         | |- context [Pos.compare_cont Eq ?a ?b] =>
             change (Pos.compare_cont Eq a b) with (Pos.compare a b);
             destruct (Pos.compare_spec a b)
         end.

Lemma leb_not_nan (a b : float32) :
  leb a b = true -> isnan a = false /\ isnan b = false.
Proof.
  unfold leb, SFleb, SFcompare.
  destruct a, b; cbn; intros H; try discriminate H; auto.
Qed.

Lemma leb_refl (a : float32) : isnan a = false -> leb a a = true.
Proof.
  unfold leb, SFleb, SFcompare.
  destruct a as [[]|[]| |[] m e]; cbn; intros H;
    try discriminate H; try reflexivity;
    rewrite Z.compare_refl;
    change (Pos.compare_cont Eq m m) with (Pos.compare m m);
    rewrite Pos.compare_refl; reflexivity.
Qed.

Lemma not_leb_ltb (a b : float32) :
  isnan a = false -> isnan b = false -> leb a b = false -> ltb b a = true.
Proof.
  unfold leb, ltb, SFleb, SFltb, SFcompare.
  destruct a as [[]|[]| |[] ma ea], b as [[]|[]| |[] mb eb]; cbn;
    intros Ha Hb H; try discriminate; try reflexivity;
    revert H; compare_cases; cbn; intros;
    try discriminate; try reflexivity; try lia.
Qed.

Lemma ltb_leb (a b : float32) : ltb a b = true -> leb a b = true.
Proof.
  unfold leb, ltb, SFleb, SFltb.
  destruct (SFcompare a b) as [[]|]; intros H; try discriminate H; reflexivity.
Qed.

Lemma leb_ltb_trans (a b c : float32) :
  leb a b = true -> ltb b c = true -> ltb a c = true.
Proof.
  unfold leb, ltb, SFleb, SFltb, SFcompare.
  destruct a as [[]|[]| |[] ma ea], b as [[]|[]| |[] mb eb],
           c as [[]|[]| |[] mc ec]; cbn; intros H1 H2;
    try discriminate; try reflexivity;
    revert H1 H2; compare_cases; cbn; intros;
    try discriminate; try reflexivity; try lia.
Qed.

(** *** The scan of [np.argmax] *)

Lemma found_first (f : nat -> float32) : found f 0 0.
Proof.
  split; [lia|]. split; [intros j Hj; lia|].
  destruct (isnan (f 0%nat)) eqn:Hn; [left; reflexivity|]. right. split.
  - intros j Hj. replace j with 0%nat by lia. apply leb_refl. exact Hn.
  - intros j Hj. lia.
Qed.

Lemma found_step (f : nat -> float32) (m b : nat) :
  found f m b ->
  found f (S m)
        (if isnan (f b) then b
         else if negb (leb (f (S m)) (f b)) then S m else b).
Proof.
  intros (Hb & Hclean & Hbest).
  destruct (isnan (f b)) eqn:Hnb.
  { split; [lia|]. split; [exact Hclean|]. left. exact Hnb. }
  destruct Hbest as [Hn | [Hmax Hfirst]]; [congruence|].
  destruct (leb (f (S m)) (f b)) eqn:Hle; cbn [negb].
  - split; [lia|]. split; [exact Hclean|]. right. split; [|exact Hfirst].
    intros j Hj. destruct (Nat.eq_dec j (S m)) as [-> | Hne]; [exact Hle|].
    apply Hmax. lia.
  - split; [lia|]. split.
    { intros j Hj. apply (leb_not_nan (f j) (f b)). apply Hmax. lia. }
    destruct (isnan (f (S m))) eqn:Hnew; [left; reflexivity|]. right.
    assert (Hlt : ltb (f b) (f (S m)) = true)
      by (apply not_leb_ltb; assumption).
    split.
    + intros j Hj. destruct (Nat.eq_dec j (S m)) as [-> | Hne].
      * apply leb_refl. exact Hnew.
      * apply ltb_leb. apply (leb_ltb_trans _ (f b)); [apply Hmax; lia | exact Hlt].
    + intros j Hj. apply (leb_ltb_trans _ (f b)); [apply Hmax; lia | exact Hlt].
Qed.

Lemma f32_argmax_scan (f : nat -> float32) (len m b : nat) :
  found f m b ->
  found f (m + len)
        (fold_left (fun best j =>
                      if isnan (f best) then best
                      else if negb (leb (f j) (f best)) then j else best)
                   (seq (S m) len) b).
Proof.
  revert m b. induction len as [|len IH]; intros m b Hf; cbn [seq fold_left].
  - rewrite Nat.add_0_r. exact Hf.
  - replace (m + S len)%nat with (S m + len)%nat by lia.
    apply IH. apply found_step. exact Hf.
Qed.

(** [np.argmax]: the first NaN if there is one, else the first index of
    the largest entry. *)
Lemma f32_argmax_row_spec (f : nat -> float32) (n : nat) :
  (0 < n)%nat ->
  (argmax_row f n < n)%nat
  /\ (forall j, (j < argmax_row f n)%nat -> isnan (f j) = false)
  /\ (isnan (f (argmax_row f n)) = true
      \/ ((forall j, (j < n)%nat -> leb (f j) (f (argmax_row f n)) = true)
          /\ (forall j, (j < argmax_row f n)%nat ->
                ltb (f j) (f (argmax_row f n)) = true))).
Proof.
  intros Hn. unfold argmax_row.
  destruct (f32_argmax_scan f (n - 1) 0 0 (found_first f)) as (Hk & Hclean & Hbest).
  split; [lia|]. split; [exact Hclean|].
  destruct Hbest as [Hnan | [Hmax Hfirst]]; [left; exact Hnan|].
  right. split; [|exact Hfirst]. intros j Hj. apply Hmax. lia.
Qed.

Lemma f32_argmax_fold_ext (f g : nat -> float32) (l : list nat) (b : nat) :
  (forall j, f j = g j) ->
  fold_left (fun best j =>
               if isnan (f best) then best
               else if negb (leb (f j) (f best)) then j else best) l b
  = fold_left (fun best j =>
                 if isnan (g best) then best
                 else if negb (leb (g j) (g best)) then j else best) l b.
Proof.
  intros Hfg. revert b.
  induction l as [|j l IH]; intros b; [reflexivity|].
  cbn [fold_left]. rewrite !Hfg. apply IH.
Qed.

(** *** The run of the ensemble *)

Lemma f32_for_each_predict (x : ndarray) (ms : list model) (outs : list ndarray) :
  Forall2 (fun m p => m x = Return p) ms outs ->
  for_each (fun m : model => call (EvPredict x) (m x)) ms
  = (map (fun _ => EvPredict x) ms, Return outs).
Proof.
  induction 1 as [|m p ms outs Hm _ IH]; [reflexivity|].
  cbn [for_each]. rewrite IH, Hm. unfold bind, call, ret. cbn.
  rewrite app_nil_r. reflexivity.
Qed.

Lemma f32_preprocess_image_inv (w : Sugarcane.world) (path : string) (x : ndarray) :
  result (preprocess_image w path (224, 224)%nat) = Return x ->
  exists img,
    Sugarcane.load_img w path (224, 224)%nat = Return img
    /\ x = divide (expand_dims0 (img_to_array 224 224 img)) (of_Z 255)
    /\ preprocess_image w path (224, 224)%nat
       = ([EvLoadImg path (224, 224)%nat], Return x).
Proof.
  unfold preprocess_image, call.
  destruct (Sugarcane.load_img w path (224, 224)%nat) as [img | e]; cbn; intros H.
  - exists img. injection H as <-. repeat split.
  - discriminate H.
Qed.

(** A byte divided by 255 in float32 lies between 0 and 1. *)
Lemma scaled_byte_range (b : byte) :
  leb zero (div (of_Z (Z.of_N (Byte.to_N b))) (of_Z 255)) = true
  /\ leb (div (of_Z (Z.of_N (Byte.to_N b))) (of_Z 255)) one = true.
Proof. destruct b; vm_compute; split; reflexivity. Qed.

Lemma f32_ensemble_run (w : Sugarcane.world) (ms : list model) (demo : bool)
      (path : string) (x : ndarray) (outs : list ndarray) (C : nat) :
  ms <> [] ->
  preprocess_image w path (224, 224)%nat
  = ([EvLoadImg path (224, 224)%nat], Return x) ->
  Forall2 (fun m p => m x = Return p) ms outs ->
  Forall (fun p => shape p = [1; C]%nat) outs ->
  (0 < C)%nat ->
  predict_sugarcane w ms demo path
  = [ (EvLoadImg path (224, 224)%nat :: map (fun _ => EvPredict x) ms,
       Return (Z.of_nat (argmax_row (mean32 outs) C))) ].
Proof.
  intros Hne Hpre Hruns Hshapes HC.
  unfold predict_sugarcane.
  destruct ms as [|m0 ms]; [congruence|].
  change (0 <? length (m0 :: ms))%nat with true. cbn [negb orb].
  unfold Rand.certainly. f_equal.
  rewrite Hpre, bind_return.
  rewrite (f32_for_each_predict x (m0 :: ms) outs Hruns), bind_return.
  destruct outs as [|p0 outs]; [inversion Hruns|].
  assert (Harr : array (p0 :: outs)
                 = Return {| shape := length (p0 :: outs) :: shape p0;
                             item idx := match idx with
                                         | i :: idx' => item (nth i (p0 :: outs) p0) idx'
                                         | [] => zero
                                         end |}).
  { unfold array.
    replace (forallb (fun a => Np.shape_eqb (shape a) (shape p0)) (p0 :: outs))
      with true; [reflexivity|].
    symmetry. apply forallb_forall. intros a Ha.
    unfold Np.shape_eqb. apply bool_decide_eq_true_2.
    rewrite Forall_forall in Hshapes.
    rewrite (Hshapes a) by (apply list_elem_of_In; exact Ha).
    rewrite (Hshapes p0) by (apply list_elem_of_In; left; reflexivity).
    reflexivity. }
  assert (Hs0 : shape p0 = [1; C]%nat).
  { rewrite Forall_forall in Hshapes. apply Hshapes. left. }
  rewrite Harr, Hs0, bind_lift_return.
  unfold mean_axis0. cbn [shape]. rewrite bind_lift_return.
  unfold argmax_axis1. cbn [shape].
  destruct (C =? 0)%nat eqn:HC0; [apply Nat.eqb_eq in HC0; lia|].
  rewrite bind_lift_return. cbn [seq map Np.first]. rewrite bind_lift_return.
  unfold ret. cbn [fst snd]. rewrite !app_nil_r. cbn [app].
  f_equal. f_equal. f_equal.
  unfold argmax_row. apply f32_argmax_fold_ext. intros j. cbn [item].
  unfold mean32.
  rewrite (EnsembleFacts.map_nth_seq (fun p => item p [0%nat; j]) (p0 :: outs) p0).
  reflexivity.
Qed.

(** The runs on the two example ensembles. *)
Lemma near_tie_run (w : Sugarcane.world) (demo : bool) (path : string)
      (img : Sugarcane.image) :
  Sugarcane.load_img w path (224, 224)%nat = Return img ->
  predict_sugarcane w (map vector_model near_tie) demo path
  = [ (EvLoadImg path (224, 224)%nat
         :: map (fun _ => EvPredict
                            (divide (expand_dims0 (img_to_array 224 224 img))
                                    (of_Z 255)))
                (map vector_model near_tie),
       Return 0) ].
Proof.
  intros Hload.
  rewrite (f32_ensemble_run w (map vector_model near_tie) demo path
             (divide (expand_dims0 (img_to_array 224 224 img)) (of_Z 255))
             (map (fun ps => {| shape := [1%nat; length ps];
                                item idx := match idx with
                                            | [_; j] => nth j ps zero
                                            | _ => zero
                                            end |}) near_tie)
             5%nat).
  - do 3 f_equal.
  - discriminate.
  - unfold preprocess_image, call. rewrite Hload. reflexivity.
  - repeat constructor.
  - repeat constructor.
  - lia.
Qed.

(** C2, as stated, fails: for two models that give class 0 the
    probabilities 1/2 and 1/2 - 2^-25 and class 1 the probability 1/2, the
    arithmetic mean is larger at class 1, and the class returned is 0: the
    float32 sum of 1/2 and 1/2 - 2^-25 is rounded to 1. *)
Lemma C2_counterexample :
  ~ (forall (w : Sugarcane.world) (ms : list model) (demo : bool)
            (path : string) (x : ndarray) (outs : list ndarray) (C k : nat)
            (t : list event),
        ms <> [] ->
        result (preprocess_image w path (224, 224)%nat) = Return x ->
        Forall2 (fun m p => m x = Return p) ms outs ->
        Forall (fun p => shape p = [1; C]%nat) outs ->
        predict_sugarcane w ms demo path = [(t, Return (Z.of_nat k))] ->
        forall j, (j < C)%nat ->
                  (arithmetic_mean outs j <= arithmetic_mean outs k)%Q).
Proof.
  intros H.
  set (w := Fixtures.world_of None (Some (Fixtures.solid Fixtures.green))).
  set (outs := map (fun ps => {| shape := [1%nat; length ps];
                                 item idx := match idx with
                                             | [_; j] => nth j ps zero
                                             | _ => zero
                                             end |}) near_tie).
  assert (Hle : (arithmetic_mean outs 1 <= arithmetic_mean outs 0)%Q).
  { apply (H w (map vector_model near_tie) false "leaf.png"%string
             (divide (expand_dims0
                        (img_to_array 224 224 (Fixtures.solid Fixtures.green)))
                     (of_Z 255))
             outs 5%nat 0%nat
             (EvLoadImg "leaf.png"%string (224, 224)%nat
                :: map (fun _ => EvPredict
                                   (divide (expand_dims0
                                              (img_to_array 224 224
                                                 (Fixtures.solid Fixtures.green)))
                                           (of_Z 255)))
                       (map vector_model near_tie))).
    - discriminate.
    - reflexivity.
    - repeat constructor.
    - repeat constructor.
    - apply (near_tie_run w false "leaf.png"%string (Fixtures.solid Fixtures.green)).
      reflexivity.
    - lia. }
  assert (Hlt : (arithmetic_mean outs 0 < arithmetic_mean outs 1)%Q)
    by (vm_compute; reflexivity).
  exact (Qlt_not_le _ _ Hlt Hle).
Qed.

(** C2, amended.  With at least one model loaded, [predict_sugarcane]
    loads and preprocesses the image once (224x224, a leading batch
    dimension of size 1, every byte divided by 255 in float32, which lies
    in [0, 1]), gives that one tensor to every loaded model, averages the
    models' vectors as [np.mean] does in float32 (the float32 sum from 0 in
    the order of the models, then one float32 division by their number),
    and only then takes the arg-max: the class returned is the first index
    of the largest entry of that float32 average, or of its first NaN. *)
Theorem C2_ensemble_float32_mean_then_argmax
        (w : Sugarcane.world) (ms : list model) (demo : bool) (path : string)
        (x : ndarray) (outs : list ndarray) (C : nat) :
  ms <> [] ->
  result (preprocess_image w path (224, 224)%nat) = Return x ->
  Forall2 (fun m p => m x = Return p) ms outs ->
  Forall (fun p => shape p = [1; C]%nat) outs ->
  (0 < C)%nat ->
  trace (preprocess_image w path (224, 224)%nat) = [EvLoadImg path (224, 224)%nat]
  /\ shape x = [1; 224; 224; 3]%nat
  /\ (exists img,
         Sugarcane.load_img w path (224, 224)%nat = Return img
         /\ forall b i j c,
             item x [b; i; j; c]
             = SFdiv 24 128
                     (binary_normalize 24 128
                        (Z.of_N (Byte.to_N (byte_of (img i j) c))) 0 false)
                     (binary_normalize 24 128 255 0 false)
             /\ SFleb (S754_zero false) (item x [b; i; j; c]) = true
             /\ SFleb (item x [b; i; j; c]) (binary_normalize 24 128 1 0 false) = true)
  /\ (forall j,
         mean32 outs j
         = SFdiv 24 128
                 (fold_left (SFadd 24 128) (map (fun p => item p [0; j]%nat) outs)
                            (S754_zero false))
                 (binary_normalize 24 128 (Z.of_nat (length ms)) 0 false))
  /\ exists k : nat,
      predict_sugarcane w ms demo path
      = [ (EvLoadImg path (224, 224)%nat :: map (fun _ => EvPredict x) ms,
           Return (Z.of_nat k)) ]
      /\ (k < C)%nat
      /\ (forall j, (j < k)%nat -> isnan (mean32 outs j) = false)
      /\ (isnan (mean32 outs k) = true
          \/ ((forall j, (j < C)%nat -> SFleb (mean32 outs j) (mean32 outs k) = true)
              /\ (forall j, (j < k)%nat ->
                    SFltb (mean32 outs j) (mean32 outs k) = true))).
Proof.
  intros Hne Hpre Hruns Hshapes HC.
  destruct (f32_preprocess_image_inv w path x Hpre) as (img & Hload & -> & Hrun).
  split; [rewrite Hrun; reflexivity|].
  split; [reflexivity|].
  split.
  { exists img. split; [exact Hload|]. intros b i j c.
    split; [reflexivity|]. apply scaled_byte_range. }
  split.
  { intros j. unfold mean32. rewrite <- (Forall2_length _ _ _ Hruns).
    reflexivity. }
  exists (argmax_row (mean32 outs) C).
  split; [eapply f32_ensemble_run; eassumption|].
  apply f32_argmax_row_spec. exact HC.
Qed.

Lemma C2_ensemble_float32_mean_then_argmax_witness :
  exists k : nat,
    predict_sugarcane
      (Fixtures.world_of None (Some (Fixtures.solid Fixtures.green)))
      (map vector_model split_vote) false "leaf.png"%string
    = [ (EvLoadImg "leaf.png"%string (224, 224)%nat
           :: map (fun _ => EvPredict
                              (divide (expand_dims0
                                         (img_to_array 224 224
                                            (Fixtures.solid Fixtures.green)))
                                      (of_Z 255)))
                  (map vector_model split_vote),
         Return (Z.of_nat k)) ]
    /\ (k < 5)%nat.
Proof.
  destruct (C2_ensemble_float32_mean_then_argmax
              (Fixtures.world_of None (Some (Fixtures.solid Fixtures.green)))
              (map vector_model split_vote) false "leaf.png"%string
              (divide (expand_dims0
                         (img_to_array 224 224 (Fixtures.solid Fixtures.green)))
                      (of_Z 255))
              (map (fun ps => {| shape := [1%nat; length ps];
                                 item idx := match idx with
                                             | [_; j] => nth j ps zero
                                             | _ => zero
                                             end |}) split_vote)
              5%nat)
    as (_ & _ & _ & _ & k & Hrun & Hk & _).
  - discriminate.
  - reflexivity.
  - repeat constructor.
  - repeat constructor.
  - lia.
  - exists k. split; assumption.
Defined.

(** Averaging is not voting: two of the three models of [split_vote] would
    pick class 0 on their own, and the ensemble answers class 1, the
    largest entry of the float32 mean. *)
Lemma averaging_is_not_voting :
  solo_votes (map (fun ps => {| shape := [1%nat; length ps];
                                item idx := match idx with
                                            | [_; j] => nth j ps zero
                                            | _ => zero
                                            end |}) split_vote) 5
  = [0; 0; 1]%nat
  /\ map result
         (predict_sugarcane
            (Fixtures.world_of None (Some (Fixtures.solid Fixtures.green)))
            (map vector_model split_vote) false "leaf.png"%string)
     = [Return 1].
Proof. split; vm_compute; reflexivity. Qed.

End F32Facts.
